(** * skydns client: a shallow embedding of [client/client.go]

    The client is a thin layer over three collaborators: Go's [net] and
    [strconv] helpers (pure string functions, embedded below as they are
    written in the Go library), and the HTTP, JSON and DNS libraries (network
    and schema code, taken as an interface, see [World]).

    Go strings are byte strings: they are modelled by [string], whose
    characters are the 8-bit [ascii] values, and [len] counts bytes.  Go's
    [int] carries indices and the DNS port; no arithmetic of the client can
    overflow it, so it is modelled by [Z]. *)

From Stdlib Require Import ZArith Lia Ascii String DecimalString.
From Stdlib Require DecimalPos DecimalZ.
From stdpp Require Import base option gmap strings.

Local Open Scope string_scope.
Local Open Scope Z_scope.

(** ** The Go runtime: results and panics *)

(** A Go call either returns its results or panics; the client never
    recovers, so a panic unwinds every caller. *)
Inductive Go (A : Type) : Type :=
| Return (a : A)
| Panic (reason : string).
Arguments Return {A} a.
Arguments Panic {A} reason.

#[global] Instance go_ret : MRet Go := fun A a => Return a.
#[global] Instance go_bind : MBind Go := fun A B k m =>
  match m with
  | Return a => k a
  | Panic r => Panic r
  end.

Definition returns {A : Type} (m : Go A) : Prop := exists a, m = Return a.
Definition panics {A : Type} (m : Go A) : Prop := exists r, m = Panic r.

(** ** Byte strings *)

Module strings.

Definition len (s : string) : Z := Z.of_nat (String.length s).

(** [s[i]] for an index already known to be in range. *)
Definition at_ (s : string) (i : Z) : option ascii :=
  if i <? 0 then None else String.get (Z.to_nat i) s.

(** [s[i:j]], total: used where the Go library has established
    [0 <= i <= j <= len s]. *)
Definition sub (s : string) (i j : Z) : string :=
  String.substring (Z.to_nat i) (Z.to_nat (j - i)) s.

(** [s[i:]] as the runtime evaluates it: the bounds check comes first. *)
Definition slice_from (s : string) (i : Z) : Go string :=
  if (i <? 0) || (len s <? i)
  then Panic "slice bounds out of range"
  else Return (sub s i (len s)).

(** [bytealg.IndexByteString]: index of the first [c] in [s], or -1. *)
Fixpoint IndexByteString (s : string) (c : ascii) : Z :=
  match s with
  | EmptyString => -1
  | String a s' =>
      if Ascii.eqb a c then 0
      else let r := IndexByteString s' c in
           if r <? 0 then -1 else r + 1
  end.

(** [bytealg.LastIndexByteString]: index of the last [c] in [s], or -1. *)
Fixpoint LastIndexByteString (s : string) (c : ascii) : Z :=
  match s with
  | EmptyString => -1
  | String a s' =>
      let r := LastIndexByteString s' c in
      if 0 <=? r then r + 1
      else if Ascii.eqb a c then 0 else -1
  end.

End strings.

(** ** Errors *)

(** Errors raised by the libraries the client calls.  [AddrError] is
    [*net.AddrError]; the others only carry their origin and text. *)
Inductive liberror : Type :=
| AddrError (Err Addr : string)
| OtherError (pkg text : string).

(** The [error] values a client method can return: the four package-level
    sentinels, each a distinct [errors.New] value, or an error handed back by
    a library.  The libraries do not import this package, so none of them can
    return a sentinel: that is what the separate [liberror] type records. *)
Inductive error : Type :=
| ErrNoHttpAddress
| ErrInvalidResponse
| ErrServiceNotFound
| ErrConflictingUUID
| LibError (e : liberror).

(** [err.Error()]: the texts of the [var] block, and [net.AddrError]'s. *)
Definition Error (e : error) : string :=
  match e with
  | ErrNoHttpAddress => "No HTTP address specified"
  | ErrInvalidResponse => "Invalid HTTP response"
  | ErrServiceNotFound => "Service not found"
  | ErrConflictingUUID => "Conflicting UUID"
  | LibError (AddrError why addr) => "address " +:+ addr +:+ ": " +:+ why
  | LibError (OtherError pkg text) => pkg +:+ ": " +:+ text
  end.

(** ** Library functions on addresses and names *)

Module net.

Import strings.

Definition missingPort : string := "missing port in address".
Definition tooManyColons : string := "too many colons in address".

Definition addrErr (addr why : string) : string * string * option liberror :=
  ("", "", Some (AddrError why addr)).

(** [net.SplitHostPort], branch for branch.  The three results are Go's
    [(host, port, err)]; on an error both strings are empty. *)
Definition SplitHostPort (hostport : string)
  : string * string * option liberror :=
  let i := LastIndexByteString hostport ":" in
  if i <? 0 then addrErr hostport missingPort
  else
    let bracketed :=
      match at_ hostport 0 with
      | Some c => Ascii.eqb c "["
      | None => false
      end in
    let rest (host : string) (j k : Z) :=
      if 0 <=? IndexByteString (sub hostport j (len hostport)) "["
      then addrErr hostport "unexpected '[' in address"
      else if 0 <=? IndexByteString (sub hostport k (len hostport)) "]"
      then addrErr hostport "unexpected ']' in address"
      else (host, sub hostport (i + 1) (len hostport), None) in
    if bracketed then
      let end_ := IndexByteString hostport "]" in
      if end_ <? 0 then addrErr hostport "missing ']' in address"
      else if end_ + 1 =? len hostport then addrErr hostport missingPort
      else if end_ + 1 =? i then rest (sub hostport 1 end_) 1 (end_ + 1)
      else
        match at_ hostport (end_ + 1) with
        | Some c =>
            if Ascii.eqb c ":" then addrErr hostport tooManyColons
            else addrErr hostport missingPort
        | None => addrErr hostport missingPort
        end
    else
      let host := sub hostport 0 i in
      if 0 <=? IndexByteString host ":"
      then addrErr hostport tooManyColons
      else rest host 0 0.

(** [net.JoinHostPort]: a host with a colon is taken for an IPv6 literal
    and bracketed. *)
Definition JoinHostPort (host port : string) : string :=
  if 0 <=? IndexByteString host ":"
  then "[" +:+ host +:+ "]:" +:+ port
  else host +:+ ":" +:+ port.

End net.

Module strconv.

(** [strconv.Itoa]: decimal digits, with a leading minus sign for a
    negative number and a single zero for 0. *)
Definition Itoa (i : Z) : string := NilZero.string_of_int (Z.to_int i).

End strconv.

Module dns.

Import strings.

(** [dns.IsFqdn]: the name ends in a dot. *)
Definition IsFqdn (s : string) : bool :=
  let l := len s in
  if l =? 0 then false
  else match at_ s (l - 1) with
       | Some c => Ascii.eqb c "."
       | None => false
       end.

(** [dns.Fqdn]: the name, dot-terminated. *)
Definition Fqdn (s : string) : string :=
  if IsFqdn s then s else s +:+ ".".

Definition TypeSRV : Z := 33.
Definition ClassINET : Z := 1.

Record Question : Type := mkQuestion {
  Name : string;
  Qtype : Z;
  Qclass : Z
}.

(** [dns.Msg], reduced to the fields [SetQuestion] writes; the answer
    sections are the library's business. *)
Record Msg : Type := mkMsg {
  Id : Z;
  RecursionDesired : bool;
  Questions : list Question
}.

(** [new(dns.Msg)]. *)
Definition new_Msg : Msg :=
  {| Id := 0; RecursionDesired := false; Questions := [] |}.

(** [Msg.SetQuestion]; [id] is the value [dns.Id()] draws. *)
Definition SetQuestion (m : Msg) (id : Z) (z : string) (t : Z) : Msg :=
  {| Id := id;
     RecursionDesired := true;
     Questions := [ {| Name := z; Qtype := t; Qclass := ClassINET |} ] |}.

(** [&dns.Client{}] *)
Inductive Client : Type := zero_Client.

End dns.

Module http.

Definition StatusOK : Z := 200.
Definition StatusCreated : Z := 201.
Definition StatusNotFound : Z := 404.
Definition StatusConflict : Z := 409.

(** [http.Header] is a [map[string][]string]. *)
Record Request : Type := mkRequest {
  Method : string;
  URL : string;
  Header : gmap string (list string);
  ReqBody : option string
}.

(** [Header.Add]: append [value] to the values of [key].  The only key the
    client adds is already in canonical MIME form. *)
Definition Header_Add (h : gmap string (list string)) (key value : string)
  : gmap string (list string) :=
  <[key := (default [] (h !! key) ++ [value])%list]> h.

(** The write [req.Header.Add(key, value)] through the request pointer. *)
Definition Request_Header_Add (req : Request) (key value : string) : Request :=
  {| Method := Method req;
     URL := URL req;
     Header := Header_Add (Header req) key value;
     ReqBody := ReqBody req |}.

(** [http.Response]: the status code and the bytes its [Body] stream
    delivers; [None] is a nil [Body]. *)
Record Response : Type := mkResponse {
  StatusCode : Z;
  Body : option string
}.

(** [&http.Client{}] *)
Inductive Client : Type := zero_Client.

End http.

(** ** The collaborators *)

(** What the client reaches through the HTTP, JSON and DNS libraries.  A
    [World] answers each library call of one client operation; the schema
    types of [msg] are opaque.  Every library call either yields its value or
    a library error. *)
Class World : Type := mkWorld {
  Service : Type;
  Callback : Type;
  (** [http.NewRequest(method, url, body)] *)
  http_NewRequest : string -> string -> option string -> http.Request + liberror;
  (** [Client.Do(req)] of [net/http] *)
  http_Do : http.Request -> http.Response + liberror;
  (** [json.NewEncoder(b).Encode(v)]: the bytes written to [b] *)
  json_Encode_Service : option Service -> string + liberror;
  json_Encode_Callback : option Callback -> string + liberror;
  (** [json.NewDecoder(body).Decode(&v)]: the value stored in [v] *)
  json_Decode_Service : string -> option Service + liberror;
  json_Decode_Services : string -> option (list (option Service)) + liberror;
  json_Decode_NameCount : string -> option (gmap string Z) + liberror;
  (** [dns.Id()] *)
  dns_Id : Z;
  (** [Client.Exchange(m, address)] of [dns]; the round-trip time is dropped *)
  dns_Exchange : dns.Msg -> string -> dns.Msg + liberror
}.

(** ** The client *)

Record Client : Type := mkClient {
  base : string;
  secret : string;
  h : http.Client;
  basedns : string;
  domain : string;
  d : dns.Client
}.

(** [NameCount] is a [map[string]int]; [None] is the nil map. *)
Abbreviation NameCount := (option (gmap string Z)).

(** [len(m)] of a map, nil or not. *)
Definition NameCount_len (m : NameCount) : Z :=
  match m with
  | None => 0
  | Some m => Z.of_nat (size m)
  end.

(** [m[k]] with the comma-ok form. *)
Definition NameCount_get (m : NameCount) (k : string) : option Z :=
  match m with
  | None => None
  | Some m => m !! k
  end.

Definition nil_deref : string := "invalid memory address or nil pointer dereference".

(** Going through a pointer: nil panics. *)
Definition deref {A : Type} (p : option A) : Go A :=
  match p with
  | Some a => Return a
  | None => Panic nil_deref
  end.

(** A library result as Go's pair [(value, err)]: the value is nil when
    [err] is not. *)
Definition pair_of {A : Type} (r : A + liberror) : option A * option error :=
  match r with
  | inl a => (Some a, None)
  | inr e => (None, Some (LibError e))
  end.

(** [NewClient] creates a new skydns client with the specified host address
    and dns port. *)
Definition NewClient (base secret dnsdomain : string) (dnsport : Z)
  : Go (option Client * option error) :=
  if String.eqb base "" then Return (None, Some ErrNoHttpAddress)
  else
    let dnsport := if dnsport =? 0 then 53 else dnsport in
    hostport ← strings.slice_from base 6;
    let '(host, _, err) := net.SplitHostPort hostport in
    (* [if err != nil { }]: the body is empty *)
    Return (Some {| base := base;
                    basedns := net.JoinHostPort host (strconv.Itoa dnsport);
                    domain := "." +:+ dns.Fqdn dnsdomain;
                    secret := secret;
                    h := http.zero_Client;
                    d := dns.zero_Client |},
            None).

Definition joinUrl (c : Client) (uuid : string) : string :=
  base c +:+ "/skydns/services/" +:+ uuid.

Definition newRequestDNS (c : Client) (id : Z) (qname : string) (qtype : Z)
  : Go (option dns.Msg * option error) :=
  let m := dns.new_Msg in
  let m := dns.SetQuestion m id qname qtype in
  Return (Some m, None).

(** The double quote, for the JSON the client writes itself. *)
Definition dquote : string := String (Ascii.ascii_of_nat 34) EmptyString.

Section Operations.

Context {W : World}.

Definition newRequest (c : Client) (method url : string) (body : option string)
  : Go (option http.Request * option error) :=
  let '(req, err) := pair_of (http_NewRequest method url body) in
  req ← (if negb (String.eqb (secret c) "")
         then r ← deref req;
              Return (Some (http.Request_Header_Add r "Authorization" (secret c)))
         else Return req);
  Return (req, err).

(** [c.h.Do(req)]: the library reads [req.URL] first. *)
Definition Do (h : http.Client) (req : option http.Request)
  : Go (option http.Response * option error) :=
  r ← deref req;
  Return (pair_of (http_Do r)).

(** [c.d.Exchange(req, address)] *)
Definition Exchange (d : dns.Client) (req : option dns.Msg) (address : string)
  : Go (option dns.Msg * option error) :=
  m ← deref req;
  Return (pair_of (dns_Exchange m address)).

(** [json.NewDecoder(body).Decode(&v)] on a response body: reading from a
    nil stream panics. *)
Definition Decode {A : Type} (decoder : string -> A + liberror)
    (body : option string) : Go (A + liberror) :=
  b ← deref body;
  Return (decoder b).

Definition Add (c : Client) (uuid : string) (s : option Service)
  : Go (option error) :=
  match json_Encode_Service s with
  | inr err => Return (Some (LibError err))
  | inl b =>
      '(req, err) ← newRequest c "PUT" (joinUrl c uuid) (Some b);
      match err with
      | Some err => Return (Some err)
      | None =>
          '(resp, err) ← Do (h c) req;
          match err with
          | Some err => Return (Some err)
          | None =>
              resp ← deref resp;
              (* the deferred [resp.Body.Close()] changes no result *)
              if http.StatusCode resp =? http.StatusCreated then Return None
              else if http.StatusCode resp =? http.StatusConflict
              then Return (Some ErrConflictingUUID)
              else Return (Some ErrInvalidResponse)
          end
      end
  end.

Definition Delete (c : Client) (uuid : string) : Go (option error) :=
  '(req, err) ← newRequest c "DELETE" (joinUrl c uuid) None;
  match err with
  | Some err => Return (Some err)
  | None =>
      '(resp, err) ← Do (h c) req;
      match err with
      | Some err => Return (Some err)
      | None =>
          resp ← deref resp;
          Return None
      end
  end.

Definition Get (c : Client) (uuid : string)
  : Go (option Service * option error) :=
  '(req, err) ← newRequest c "GET" (joinUrl c uuid) None;
  match err with
  | Some err => Return (None, Some err)
  | None =>
      '(resp, err) ← Do (h c) req;
      match err with
      | Some err => Return (None, Some err)
      | None =>
          resp ← deref resp;
          if http.StatusCode resp =? http.StatusOK then
            r ← Decode json_Decode_Service (http.Body resp);
            match r with
            | inr err => Return (None, Some (LibError err))
            | inl s => Return (s, None)
            end
          else if http.StatusCode resp =? http.StatusNotFound
          then Return (None, Some ErrServiceNotFound)
          else Return (None, Some ErrInvalidResponse)
      end
  end.

(** The body [Update] formats: [ttl] is a [uint32] and [%d] prints it in
    decimal. *)
Definition ttl_body (ttl : Z) : string :=
  "{" +:+ dquote +:+ "TTL" +:+ dquote +:+ ":" +:+ strconv.Itoa ttl +:+ "}".

Definition Update (c : Client) (uuid : string) (ttl : Z) : Go (option error) :=
  let b := ttl_body ttl in
  '(req, err) ← newRequest c "PATCH" (joinUrl c uuid) (Some b);
  match err with
  | Some err => Return (Some err)
  | None =>
      '(resp, err) ← Do (h c) req;
      match err with
      | Some err => Return (Some err)
      | None =>
          resp ← deref resp;
          Return None
      end
  end.

(** The shared tail of the three decoding reads. *)
Definition get_and_decode {A : Type} (c : Client) (url : string)
    (decoder : string -> option A + liberror)
  : Go (option A * option error) :=
  '(req, err) ← newRequest c "GET" url None;
  match err with
  | Some err => Return (None, Some err)
  | None =>
      '(resp, err) ← Do (h c) req;
      match err with
      | Some err => Return (None, Some err)
      | None =>
          resp ← deref resp;
          r ← Decode decoder (http.Body resp);
          match r with
          | inr err => Return (None, Some (LibError err))
          | inl out => Return (out, None)
          end
      end
  end.

Definition GetAllServices (c : Client)
  : Go (option (list (option Service)) * option error) :=
  get_and_decode c (joinUrl c "") json_Decode_Services.

Definition GetRegions (c : Client) : Go (NameCount * option error) :=
  get_and_decode c (base c +:+ "/skydns/regions/") json_Decode_NameCount.

Definition GetEnvironments (c : Client) : Go (NameCount * option error) :=
  get_and_decode c (base c +:+ "/skydns/environments/") json_Decode_NameCount.

Definition GetRegionsDNS (c : Client) : Go (NameCount * option error) :=
  '(req, err) ← newRequestDNS c dns_Id "regions" dns.TypeSRV;
  match err with
  | Some err => Return (None, Some err)
  | None =>
      '(resp, err) ← Exchange (d c) req (basedns c);
      match err with
      | Some err => Return (None, Some err)
      | None =>
          (* [var out NameCount]; [resp = resp] *)
          let out : NameCount := None in
          Return (out, None)
      end
  end.

Definition AddCallback (c : Client) (uuid : string) (cb : option Callback)
  : Go (option error) :=
  match json_Encode_Callback cb with
  | inr err => Return (Some (LibError err))
  | inl buf =>
      '(req, err) ← newRequest c "PUT"
                      (base c +:+ "/skydns/callbacks/" +:+ uuid) (Some buf);
      match err with
      | Some err => Return (Some err)
      | None =>
          '(resp, err) ← Do (h c) req;
          match err with
          | Some err => Return (Some err)
          | None =>
              resp ← deref resp;
              if http.StatusCode resp =? http.StatusCreated then Return None
              else if http.StatusCode resp =? http.StatusNotFound
              then Return (Some ErrServiceNotFound)
              else Return (Some ErrInvalidResponse)
          end
      end
  end.

(** The HTTP round trip of an operation completes with [resp]: the request
    is built without an error and the transport hands back a response. *)
Definition round_trip (c : Client) (method url : string) (body : option string)
    (resp : http.Response) : Prop :=
  exists req : http.Request,
    newRequest c method url body = Return (Some req, None) /\
    http_Do req = inl resp.

(** The DNS exchange of [GetRegionsDNS] succeeds with [resp]. *)
Definition dns_exchange_succeeds (c : Client) (resp : dns.Msg) : Prop :=
  exists m : dns.Msg,
    newRequestDNS c dns_Id "regions" dns.TypeSRV = Return (Some m, None) /\
    dns_Exchange m (basedns c) = inl resp.

(** The request of an operation fails with the library error [e]: it
    cannot be built (no secret being configured), or it is built and the
    transport fails. *)
Definition request_fails (c : Client) (method url : string)
    (body : option string) (e : liberror) : Prop :=
  (secret c = "" /\ http_NewRequest method url body = inr e) \/
  (exists req : http.Request,
     newRequest c method url body = Return (Some req, None) /\
     http_Do req = inr e).

(** The request builder would go through a nil request: a secret is
    configured and the request cannot be built. *)
Definition builder_panics (c : Client) (method url : string)
    (body : option string) : Prop :=
  secret c <> "" /\ exists e, http_NewRequest method url body = inr e.

End Operations.

(** The four sentinel values of the package. *)
Definition sentinels : list error :=
  [ErrNoHttpAddress; ErrInvalidResponse; ErrServiceNotFound; ErrConflictingUUID].


(** ** Two small worlds for the examples *)

(** The JSON text of a record stands for the record: a document is an
    object, or [null] for a nil pointer. *)
Definition toy_decode (b : string) : option string + liberror :=
  if String.eqb b "null" then inl None
  else if String.prefix "{" b then inl (Some b)
  else inr (OtherError "json" "invalid character looking for beginning of value").

(** A server that answers every request with the same response, and every
    DNS query with the query itself; every request is well formed. *)
Definition canned_World (status : Z) (body : option string) : World :=
  {| Service := string;
     Callback := string;
     http_NewRequest := fun method url b => inl (http.mkRequest method url ∅ b);
     http_Do := fun _ => inl (http.mkResponse status body);
     json_Encode_Service := fun s => inl (default "null" s);
     json_Encode_Callback := fun cb => inl (default "null" cb);
     json_Decode_Service := toy_decode;
     json_Decode_Services := fun _ => inl (Some []);
     json_Decode_NameCount := fun _ => inl (Some ∅);
     dns_Id := 4242;
     dns_Exchange := fun m _ => inl m |}.

(** A world in which no request can be built, as for a URL with a bad
    escape. *)
Definition malformed_World : World :=
  {| Service := string;
     Callback := string;
     http_NewRequest := fun _ url _ =>
       inr (OtherError "net/url" ("parse " +:+ url +:+ ": invalid URL escape"));
     http_Do := fun _ => inr (OtherError "net/http" "nil Request.URL");
     json_Encode_Service := fun s => inl (default "null" s);
     json_Encode_Callback := fun cb => inl (default "null" cb);
     json_Decode_Service := toy_decode;
     json_Decode_Services := fun _ => inl (Some []);
     json_Decode_NameCount := fun _ => inl (Some ∅);
     dns_Id := 4242;
     dns_Exchange := fun m _ => inl m |}.

(** A world whose servers cannot be reached: requests are well formed and
    every exchange fails in the transport. *)
Definition unreachable_World : World :=
  {| Service := string;
     Callback := string;
     http_NewRequest := fun method url b => inl (http.mkRequest method url ∅ b);
     http_Do := fun _ => inr (OtherError "net/http" "dial tcp: connection refused");
     json_Encode_Service := fun s => inl (default "null" s);
     json_Encode_Callback := fun cb => inl (default "null" cb);
     json_Decode_Service := toy_decode;
     json_Decode_Services := fun _ => inl (Some []);
     json_Decode_NameCount := fun _ => inl (Some ∅);
     dns_Id := 4242;
     dns_Exchange := fun _ _ => inr (OtherError "dns" "i/o timeout") |}.

(** The client of the examples. *)
Definition example_Client (secret : string) : Client :=
  {| base := "http://10.0.0.1:8080";
     secret := secret;
     h := http.zero_Client;
     basedns := "10.0.0.1:53";
     domain := ".skydns.local.";
     d := dns.zero_Client |}.

(** * Properties *)

(** ** Status mapping of the control-plane operations *)

Section StatusMapping.

Context {W : World}.

(** Runs an operation up to its status switch, given that its round trip
    completes. *)
Ltac complete_round_trip H :=
  let req := fresh "req" in
  let Ereq := fresh "Ereq" in
  let Edo := fresh "Edo" in
  destruct H as (req & Ereq & Edo);
  rewrite Ereq; simpl; rewrite Edo; simpl.

Ltac decide_status :=
  repeat match goal with
         | |- context [?x =? ?y] =>
             destruct (Z.eqb_spec x y); try contradiction; try discriminate; try lia
         end.

(** C3: when the record is encoded and the round trip yields a response,
    [Add] answers from the status code alone: 201 is success, 409 is
    [ErrConflictingUUID], anything else is [ErrInvalidResponse]. *)
Theorem Add_status_mapping (c : Client) (uuid : string) (s : option Service)
    (b : string) (resp : http.Response) :
  json_Encode_Service s = inl b ->
  round_trip c "PUT" (joinUrl c uuid) (Some b) resp ->
  (http.StatusCode resp = 201 -> Add c uuid s = Return None) /\
  (http.StatusCode resp = 409 -> Add c uuid s = Return (Some ErrConflictingUUID)) /\
  (http.StatusCode resp <> 201 -> http.StatusCode resp <> 409 ->
   Add c uuid s = Return (Some ErrInvalidResponse)).
Proof.
  intros Eenc Hrt.
  unfold Add. rewrite Eenc. complete_round_trip Hrt.
  unfold http.StatusCreated, http.StatusConflict.
  repeat split.
  - intros ->. reflexivity.
  - intros ->. reflexivity.
  - intros H1 H2. decide_status. reflexivity.
Qed.

(** C4: when the round trip of [Get] yields a response, 200 with a body
    that decodes returns the decoded record, 404 returns
    [ErrServiceNotFound], any other status returns [ErrInvalidResponse], and
    200 with a body that does not decode returns the decoder's error, which
    is none of the four sentinels. *)
Theorem Get_status_mapping (c : Client) (uuid : string) (resp : http.Response) :
  round_trip c "GET" (joinUrl c uuid) None resp ->
  (forall body s,
      http.StatusCode resp = 200 -> http.Body resp = Some body ->
      json_Decode_Service body = inl s ->
      Get c uuid = Return (s, None)) /\
  (http.StatusCode resp = 404 ->
   Get c uuid = Return (None, Some ErrServiceNotFound)) /\
  (http.StatusCode resp <> 200 -> http.StatusCode resp <> 404 ->
   Get c uuid = Return (None, Some ErrInvalidResponse)) /\
  (forall body e,
      http.StatusCode resp = 200 -> http.Body resp = Some body ->
      json_Decode_Service body = inr e ->
      Get c uuid = Return (None, Some (LibError e)) /\
      LibError e ∉ sentinels).
Proof.
  intros Hrt.
  unfold Get. complete_round_trip Hrt.
  unfold http.StatusOK, http.StatusNotFound.
  split; [|split; [|split]].
  - intros body s -> Hbody Hdec. simpl. rewrite Hbody. simpl.
    rewrite Hdec. reflexivity.
  - intros ->. reflexivity.
  - intros H1 H2. decide_status. reflexivity.
  - intros body e -> Hbody Hdec. split.
    + simpl. rewrite Hbody. simpl. rewrite Hdec. reflexivity.
    + unfold sentinels. rewrite !elem_of_cons, elem_of_nil.
      intros [?|[?|[?|[?|[]]]]]; discriminate.
Qed.

(** C5: when their round trip yields a response, [Delete] and [Update]
    return a nil error whatever the status code is. *)
Theorem Delete_Update_ignore_status (c : Client) (uuid : string) (ttl : Z) :
  (forall resp, round_trip c "DELETE" (joinUrl c uuid) None resp ->
                Delete c uuid = Return None) /\
  (forall resp, round_trip c "PATCH" (joinUrl c uuid) (Some (ttl_body ttl)) resp ->
                Update c uuid ttl = Return None).
Proof.
  split; intros resp Hrt.
  - unfold Delete. complete_round_trip Hrt. reflexivity.
  - unfold Update. complete_round_trip Hrt. reflexivity.
Qed.

(** C6: when the callback is encoded and the round trip yields a response,
    [AddCallback] maps 201 to success, 404 to [ErrServiceNotFound] and any
    other status to [ErrInvalidResponse]. *)
Theorem AddCallback_status_mapping (c : Client) (uuid : string)
    (cb : option Callback) (buf : string) (resp : http.Response) :
  json_Encode_Callback cb = inl buf ->
  round_trip c "PUT" (base c +:+ "/skydns/callbacks/" +:+ uuid) (Some buf) resp ->
  (http.StatusCode resp = 201 -> AddCallback c uuid cb = Return None) /\
  (http.StatusCode resp = 404 ->
   AddCallback c uuid cb = Return (Some ErrServiceNotFound)) /\
  (http.StatusCode resp <> 201 -> http.StatusCode resp <> 404 ->
   AddCallback c uuid cb = Return (Some ErrInvalidResponse)).
Proof.
  intros Eenc Hrt.
  unfold AddCallback. rewrite Eenc. complete_round_trip Hrt.
  unfold http.StatusCreated, http.StatusNotFound.
  repeat split.
  - intros ->. reflexivity.
  - intros ->. reflexivity.
  - intros H1 H2. decide_status. reflexivity.
Qed.

(** C7: when the DNS exchange succeeds, [GetRegionsDNS] returns the nil
    map, which has no entry, and a nil error: the response is dropped. *)
Theorem GetRegionsDNS_empty (c : Client) (resp : dns.Msg) :
  dns_exchange_succeeds c resp ->
  exists out : NameCount,
    GetRegionsDNS c = Return (out, None) /\
    NameCount_len out = 0 /\
    forall name, NameCount_get out name = None.
Proof.
  intros (m & Ereq & Eex).
  exists None. split; [|split; [reflexivity|intros; reflexivity]].
  unfold GetRegionsDNS. rewrite Ereq. simpl. rewrite Eex. reflexivity.
Qed.

(** What the request builder does when [http.NewRequest] fails: without a
    secret the error goes back with a nil request; with a secret the header
    is written through the nil request first. *)
Lemma newRequest_when_construction_fails (c : Client) (method url : string)
    (body : option string) (e : liberror) :
  http_NewRequest method url body = inr e ->
  newRequest c method url body =
    if String.eqb (secret c) "" then Return (None, Some (LibError e))
    else Panic nil_deref.
Proof.
  intros E. unfold newRequest. rewrite E. simpl.
  destruct (String.eqb (secret c) ""); reflexivity.
Qed.

End StatusMapping.

(** ** Byte strings: indices, slices and concatenation *)

Section Bytes.

Import strings.

Lemma len_nonneg (s : string) : 0 <= len s.
Proof. unfold len. lia. Qed.

Lemma len_String (a : ascii) (s : string) : len (String a s) = 1 + len s.
Proof. unfold len. simpl String.length. lia. Qed.

Lemma app_empty_l (t : string) : "" +:+ t = t.
Proof. reflexivity. Qed.

Lemma app_String (a : ascii) (s t : string) :
  String a s +:+ t = String a (s +:+ t).
Proof. reflexivity. Qed.

Lemma len_app (s t : string) : len (s +:+ t) = len s + len t.
Proof.
  induction s as [|a s IH]; rewrite ?app_empty_l, ?app_String.
  - change (len "") with 0. lia.
  - rewrite !len_String, IH. lia.
Qed.

Lemma IndexByteString_range (s : string) (c : ascii) :
  -1 <= IndexByteString s c < len s.
Proof.
  induction s as [|a s IH]; simpl.
  - change (len "") with 0. lia.
  - rewrite len_String.
    destruct (Ascii.eqb a c); [lia|].
    destruct (Z.ltb_spec (IndexByteString s c) 0); lia.
Qed.

Lemma LastIndexByteString_range (s : string) (c : ascii) :
  -1 <= LastIndexByteString s c < len s.
Proof.
  induction s as [|a s IH]; simpl.
  - change (len "") with 0. lia.
  - rewrite len_String.
    destruct (Z.leb_spec 0 (LastIndexByteString s c)); [lia|].
    destruct (Ascii.eqb a c); lia.
Qed.

(** The first index in a concatenation. *)
Lemma IndexByteString_app (s t : string) (c : ascii) :
  IndexByteString (s +:+ t) c =
    if 0 <=? IndexByteString s c then IndexByteString s c
    else if 0 <=? IndexByteString t c then len s + IndexByteString t c
    else -1.
Proof.
  induction s as [|a s IH]; rewrite ?app_empty_l, ?app_String; simpl.
  - pose proof (IndexByteString_range t c).
    destruct (Z.leb_spec 0 (IndexByteString t c)); change (len "") with 0; lia.
  - rewrite len_String.
    destruct (Ascii.eqb a c); [reflexivity|].
    rewrite IH.
    pose proof (IndexByteString_range s c).
    pose proof (IndexByteString_range t c).
    destruct (Z.leb_spec 0 (IndexByteString s c)).
    + destruct (Z.ltb_spec (IndexByteString s c) 0); [lia|].
      destruct (Z.leb_spec 0 (IndexByteString s c + 1)); lia.
    + destruct (Z.ltb_spec (IndexByteString s c) 0); [|lia].
      simpl.
      destruct (Z.leb_spec 0 (IndexByteString t c)).
      * destruct (Z.ltb_spec (len s + IndexByteString t c) 0); lia.
      * reflexivity.
Qed.

(** The last index in a concatenation. *)
Lemma LastIndexByteString_app (s t : string) (c : ascii) :
  LastIndexByteString (s +:+ t) c =
    if 0 <=? LastIndexByteString t c then len s + LastIndexByteString t c
    else LastIndexByteString s c.
Proof.
  induction s as [|a s IH]; rewrite ?app_empty_l, ?app_String; simpl.
  - pose proof (LastIndexByteString_range t c).
    destruct (Z.leb_spec 0 (LastIndexByteString t c)); change (len "") with 0; lia.
  - rewrite len_String, IH.
    pose proof (len_nonneg s).
    destruct (Z.leb_spec 0 (LastIndexByteString t c)).
    + destruct (Z.leb_spec 0 (len s + LastIndexByteString t c)); lia.
    + reflexivity.
Qed.

(** A byte that has no first index has no last index. *)
Lemma LastIndexByteString_absent (s : string) (c : ascii) :
  IndexByteString s c < 0 -> LastIndexByteString s c < 0.
Proof.
  induction s as [|a s IH]; simpl; [lia|].
  destruct (Ascii.eqb a c); [lia|].
  pose proof (IndexByteString_range s c).
  destruct (Z.ltb_spec (IndexByteString s c) 0); [|lia].
  intros _. specialize (IH ltac:(lia)).
  destruct (Z.leb_spec 0 (LastIndexByteString s c)); lia.
Qed.

Lemma IndexByteString_absent_head (a : ascii) (s : string) (c : ascii) :
  IndexByteString (String a s) c < 0 -> a <> c /\ IndexByteString s c < 0.
Proof.
  simpl. destruct (Ascii.eqb_spec a c); [lia|].
  pose proof (IndexByteString_range s c).
  destruct (Z.ltb_spec (IndexByteString s c) 0); [|lia].
  intros _. split; [assumption|lia].
Qed.

(** A byte absent from a string is absent from its prefixes. *)
Lemma IndexByteString_absent_prefix (s : string) (c : ascii) (k : nat) :
  IndexByteString s c < 0 -> IndexByteString (String.substring 0 k s) c < 0.
Proof.
  revert k. induction s as [|a s IH]; intros k H.
  - destruct k; simpl; lia.
  - destruct (IndexByteString_absent_head _ _ _ H) as [Hne Hs].
    destruct k; simpl; [lia|].
    destruct (Ascii.eqb_spec a c); [contradiction|].
    specialize (IH k Hs).
    destruct (Z.ltb_spec (IndexByteString (String.substring 0 k s) c) 0); lia.
Qed.

(** The bytes before the first index of [c] do not hold [c]. *)
Lemma IndexByteString_before_first (s : string) (c : ascii) :
  0 <= IndexByteString s c ->
  IndexByteString (String.substring 0 (Z.to_nat (IndexByteString s c)) s) c < 0.
Proof.
  induction s as [|a s IH]; simpl; [lia|].
  destruct (Ascii.eqb_spec a c) as [->|Hne]; [simpl; lia|].
  pose proof (IndexByteString_range s c).
  destruct (Z.ltb_spec (IndexByteString s c) 0); [lia|].
  intros _. specialize (IH ltac:(lia)).
  replace (Z.to_nat (IndexByteString s c + 1))
    with (S (Z.to_nat (IndexByteString s c))) by lia.
  simpl. destruct (Ascii.eqb_spec a c); [contradiction|].
  destruct (Z.ltb_spec
    (IndexByteString (String.substring 0 (Z.to_nat (IndexByteString s c)) s) c) 0);
    lia.
Qed.

Lemma substring_whole (s : string) : String.substring 0 (String.length s) s = s.
Proof. induction s as [|a s IH]; simpl; [reflexivity|]. rewrite IH. reflexivity. Qed.

Lemma substring_take (s t : string) :
  String.substring 0 (String.length s) (s +:+ t) = s.
Proof.
  induction s as [|a s IH]; rewrite ?app_empty_l, ?app_String; simpl.
  - destruct t; reflexivity.
  - rewrite IH. reflexivity.
Qed.

Lemma substring_drop (s t : string) (n m : nat) :
  String.substring (String.length s + n) m (s +:+ t) = String.substring n m t.
Proof.
  induction s as [|a s IH]; rewrite ?app_empty_l, ?app_String; simpl;
    [reflexivity|exact IH].
Qed.

Lemma sub_whole (s : string) : sub s 0 (len s) = s.
Proof.
  unfold sub, len. rewrite Z.sub_0_r, Nat2Z.id. simpl Z.to_nat.
  apply substring_whole.
Qed.

Lemma sub_take (s t : string) : sub (s +:+ t) 0 (len s) = s.
Proof.
  unfold sub, len. rewrite Z.sub_0_r, Nat2Z.id. simpl Z.to_nat.
  apply substring_take.
Qed.

Lemma sub_drop (s t : string) (i j : Z) :
  0 <= i -> sub (s +:+ t) (len s + i) (len s + j) = sub t i j.
Proof.
  intros Hi. unfold sub, len.
  replace (Z.to_nat (Z.of_nat (String.length s) + i))
    with (String.length s + Z.to_nat i)%nat by lia.
  replace (Z.of_nat (String.length s) + j - (Z.of_nat (String.length s) + i))
    with (j - i) by lia.
  apply substring_drop.
Qed.

Lemma at_head (s : string) (c : ascii) :
  at_ s 0 = Some c -> exists s', s = String c s'.
Proof.
  destruct s as [|a s']; unfold at_; simpl; [discriminate|].
  intros [= ->]. eexists. reflexivity.
Qed.

Lemma sub_tail (a : ascii) (s : string) (j : Z) :
  sub (String a s) 1 j = String.substring 0 (Z.to_nat (j - 1)) s.
Proof. unfold sub. change (Z.to_nat 1) with 1%nat. reflexivity. Qed.

Lemma sub_prefix (s : string) (j : Z) :
  sub s 0 j = String.substring 0 (Z.to_nat j) s.
Proof. unfold sub. rewrite Z.sub_0_r. reflexivity. Qed.

Lemma IndexByteString_tail (a : ascii) (s : string) (c : ascii) :
  a <> c -> 0 <= IndexByteString (String a s) c ->
  IndexByteString (String a s) c = IndexByteString s c + 1 /\
  0 <= IndexByteString s c.
Proof.
  intros Hne. simpl. destruct (Ascii.eqb_spec a c); [contradiction|].
  destruct (Z.ltb_spec (IndexByteString s c) 0); lia.
Qed.

Lemma app_assoc (s t u : string) : (s +:+ t) +:+ u = s +:+ (t +:+ u).
Proof.
  induction s as [|a s IH]; rewrite ?app_empty_l, ?app_String;
    [reflexivity|]. rewrite IH. reflexivity.
Qed.

Lemma IndexByteString_absent_app (s t : string) (c : ascii) :
  IndexByteString s c < 0 -> IndexByteString t c < 0 ->
  IndexByteString (s +:+ t) c < 0.
Proof.
  intros Hs Ht. rewrite IndexByteString_app.
  destruct (Z.leb_spec 0 (IndexByteString s c)); [lia|].
  destruct (Z.leb_spec 0 (IndexByteString t c)); lia.
Qed.

Lemma IndexByteString_absent_String (a : ascii) (s : string) (c : ascii) :
  a <> c -> IndexByteString s c < 0 -> IndexByteString (String a s) c < 0.
Proof.
  intros Hne Hs. simpl. destruct (Ascii.eqb_spec a c); [contradiction|].
  destruct (Z.ltb_spec (IndexByteString s c) 0); lia.
Qed.

(** The first index of a byte that comes right after a part without it. *)
Lemma IndexByteString_at_join (s t : string) (c : ascii) :
  IndexByteString s c < 0 -> IndexByteString (s +:+ String c t) c = len s.
Proof.
  intros Hs. rewrite IndexByteString_app.
  destruct (Z.leb_spec 0 (IndexByteString s c)); [lia|].
  simpl. rewrite Ascii.eqb_refl. simpl. lia.
Qed.

(** The last index of a byte that comes right before a part without it. *)
Lemma LastIndexByteString_at_join (s t : string) (c : ascii) :
  IndexByteString t c < 0 -> LastIndexByteString (s +:+ String c t) c = len s.
Proof.
  intros Ht. rewrite LastIndexByteString_app.
  pose proof (LastIndexByteString_absent _ _ Ht) as Hl.
  simpl. destruct (Z.leb_spec 0 (LastIndexByteString t c)); [lia|].
  rewrite Ascii.eqb_refl. simpl. lia.
Qed.

(** [s[i:j]] when [s] is split around the slice. *)
Lemma sub_middle (p t q : string) (i j : Z) :
  i = len p -> j = len p + len t -> sub (p +:+ t +:+ q) i j = t.
Proof.
  intros -> ->.
  rewrite <- (Z.add_0_r (len p)) at 1.
  rewrite sub_drop by lia. apply sub_take.
Qed.

Lemma sub_suffix (p t : string) (i j : Z) :
  i = len p -> j = len p + len t -> sub (p +:+ t) i j = t.
Proof.
  intros -> ->.
  rewrite <- (Z.add_0_r (len p)) at 1.
  rewrite sub_drop by lia. apply sub_whole.
Qed.

(** A string without [c] does not start with [c]. *)
Lemma first_byte_absent (s : string) (c : ascii) :
  IndexByteString s c < 0 ->
  match at_ s 0 with
  | Some c' => Ascii.eqb c' c
  | None => false
  end = false.
Proof.
  destruct s as [|a s]; [reflexivity|].
  intros H. destruct (IndexByteString_absent_head _ _ _ H) as [Hne _].
  unfold at_. simpl. apply Ascii.eqb_neq. exact Hne.
Qed.

End Bytes.

(** ** Splitting and joining addresses *)

Section Addresses.

Import strings.

(** The host [SplitHostPort] hands back, on success or on error, holds no
    square bracket. *)
Lemma SplitHostPort_host_clean (hostport host port : string)
    (err : option liberror) :
  net.SplitHostPort hostport = (host, port, err) ->
  IndexByteString host "[" < 0 /\ IndexByteString host "]" < 0.
Proof.
  assert (Hempty : IndexByteString "" "[" < 0 /\ IndexByteString "" "]" < 0)
    by (simpl; lia).
  unfold net.SplitHostPort, net.addrErr. cbv zeta.
  destruct (LastIndexByteString hostport ":" <? 0);
    [intros [= <- _ _]; exact Hempty|].
  destruct (at_ hostport 0) as [c0|] eqn:E0.
  - destruct (at_head _ _ E0) as [tl ->]. clear E0.
    destruct (Ascii.eqb_spec c0 "[") as [->|Hc0].
    + (* the bracketed form *)
      destruct (Z.ltb_spec (IndexByteString (String "[" tl) "]") 0) as [|Hend];
        [intros [= <- _ _]; exact Hempty|].
      destruct (_ =? len _); [intros [= <- _ _]; exact Hempty|].
      destruct (_ =? LastIndexByteString _ _).
      * destruct (Z.leb_spec 0
          (IndexByteString (sub (String "[" tl) 1 (len (String "[" tl))) "["))
          as [|Hopen]; [intros [= <- _ _]; exact Hempty|].
        destruct (0 <=? _); intros [= <- _ _]; [exact Hempty|].
        destruct (IndexByteString_tail "[" tl "]" ltac:(discriminate) Hend)
          as [Eend Hend'].
        rewrite sub_tail in *. split.
        -- rewrite len_String in Hopen.
           replace (Z.to_nat (1 + len tl - 1)) with (String.length tl) in Hopen
             by (unfold len; lia).
           rewrite substring_whole in Hopen.
           apply IndexByteString_absent_prefix. exact Hopen.
        -- destruct (Z.ltb_spec (IndexByteString tl "]") 0); [lia|].
           replace (IndexByteString tl "]" + 1 - 1)
             with (IndexByteString tl "]") by lia.
           apply IndexByteString_before_first. exact Hend'.
      * destruct (at_ _ _) as [c1|]; [destruct (Ascii.eqb c1 ":")|];
          intros [= <- _ _]; exact Hempty.
    + (* the plain form *)
      destruct (0 <=? IndexByteString (sub (String c0 tl) 0 _) ":");
        [intros [= <- _ _]; exact Hempty|].
      rewrite sub_whole.
      destruct (Z.leb_spec 0 (IndexByteString (String c0 tl) "[")) as [|Hopen];
        [intros [= <- _ _]; exact Hempty|].
      destruct (Z.leb_spec 0 (IndexByteString (String c0 tl) "]")) as [|Hclose];
        intros [= <- _ _]; [exact Hempty|].
      rewrite sub_prefix.
      split; apply IndexByteString_absent_prefix; assumption.
  - (* no first byte: only the plain form is left *)
    destruct (0 <=? IndexByteString (sub hostport 0 _) ":");
      [intros [= <- _ _]; exact Hempty|].
    rewrite sub_whole.
    destruct (Z.leb_spec 0 (IndexByteString hostport "[")) as [|Hopen];
      [intros [= <- _ _]; exact Hempty|].
    destruct (Z.leb_spec 0 (IndexByteString hostport "]")) as [|Hclose];
      intros [= <- _ _]; [exact Hempty|].
    rewrite sub_prefix.
    split; apply IndexByteString_absent_prefix; assumption.
Qed.

(** Splitting undoes joining, for a host without square brackets and a
    port without colons or square brackets. *)
Lemma SplitHostPort_JoinHostPort (host port : string) :
  IndexByteString host "[" < 0 -> IndexByteString host "]" < 0 ->
  IndexByteString port ":" < 0 ->
  IndexByteString port "[" < 0 -> IndexByteString port "]" < 0 ->
  net.SplitHostPort (net.JoinHostPort host port) = (host, port, None).
Proof.
  intros Hopen Hclose Pcolon Popen Pclose.
  pose proof (len_nonneg host) as Hlen.
  pose proof (len_nonneg port) as Plen.
  unfold net.JoinHostPort.
  destruct (Z.leb_spec 0 (IndexByteString host ":")) as [Hcolon|Hcolon].
  - (* an IPv6 literal: [host]:port *)
    assert (EJ : "[" +:+ host +:+ "]:" +:+ port
                 = String "[" (host +:+ String "]" (String ":" port)))
      by reflexivity.
    assert (Elen : len ("[" +:+ host +:+ "]:" +:+ port) = len host + 3 + len port).
    { rewrite EJ, len_String, len_app, !len_String. lia. }
    assert (Ei : LastIndexByteString ("[" +:+ host +:+ "]:" +:+ port) ":"
                 = len host + 2).
    { replace ("[" +:+ host +:+ "]:" +:+ port)
        with (("[" +:+ host +:+ "]") +:+ String ":" port)
        by (rewrite !app_assoc; reflexivity).
      rewrite LastIndexByteString_at_join by assumption.
      rewrite !len_app. change (len "[") with 1. change (len "]") with 1. lia. }
    assert (Eend : IndexByteString ("[" +:+ host +:+ "]:" +:+ port) "]"
                   = len host + 1).
    { replace ("[" +:+ host +:+ "]:" +:+ port)
        with (("[" +:+ host) +:+ String "]" (String ":" port))
        by (rewrite !app_assoc; reflexivity).
      rewrite IndexByteString_at_join.
      - rewrite len_app. change (len "[") with 1. lia.
      - apply IndexByteString_absent_String; [discriminate|assumption]. }
    assert (Ehost : sub ("[" +:+ host +:+ "]:" +:+ port) 1 (len host + 1) = host).
    { apply sub_middle; change (len "[") with 1; lia. }
    assert (Etail : sub ("[" +:+ host +:+ "]:" +:+ port) 1 (len host + 3 + len port)
                    = host +:+ "]:" +:+ port).
    { apply sub_suffix; [reflexivity|].
      change (len "[") with 1. rewrite len_app.
      change (len ("]:" +:+ port)) with (len (String "]" (String ":" port))).
      rewrite !len_String. lia. }
    assert (Eafter : sub ("[" +:+ host +:+ "]:" +:+ port)
                       (len host + 1 + 1) (len host + 3 + len port)
                     = String ":" port).
    { replace ("[" +:+ host +:+ "]:" +:+ port)
        with (("[" +:+ host +:+ "]") +:+ String ":" port)
        by (rewrite !app_assoc; reflexivity).
      apply sub_suffix; rewrite !len_app; change (len "[") with 1;
        change (len "]") with 1; rewrite ?len_String; lia. }
    assert (Eport : sub ("[" +:+ host +:+ "]:" +:+ port)
                      (len host + 2 + 1) (len host + 3 + len port)
                    = port).
    { replace ("[" +:+ host +:+ "]:" +:+ port)
        with (("[" +:+ host +:+ "]:") +:+ port)
        by (rewrite !app_assoc; reflexivity).
      apply sub_suffix; rewrite !len_app; change (len "[") with 1;
        change (len "]:") with 2; lia. }
    unfold net.SplitHostPort. cbv zeta.
    rewrite Ei, Eend, Elen, Ehost, Etail, Eafter, Eport.
    change (at_ ("[" +:+ host +:+ "]:" +:+ port) 0) with (Some "["%char).
    cbv beta iota. rewrite Ascii.eqb_refl.
    destruct (Z.ltb_spec (len host + 2) 0); [lia|].
    destruct (Z.ltb_spec (len host + 1) 0); [lia|].
    destruct (Z.eqb_spec (len host + 1 + 1) (len host + 3 + len port)); [lia|].
    destruct (Z.eqb_spec (len host + 1 + 1) (len host + 2)); [|lia].
    assert (T1 : IndexByteString (host +:+ "]:" +:+ port) "[" < 0).
    { apply IndexByteString_absent_app; [assumption|].
      repeat (apply IndexByteString_absent_String; [discriminate|]).
      assumption. }
    assert (T2 : IndexByteString (String ":" port) "]" < 0)
      by (apply IndexByteString_absent_String; [discriminate|assumption]).
    destruct (Z.leb_spec 0 (IndexByteString (host +:+ "]:" +:+ port) "["));
      [lia|].
    destruct (Z.leb_spec 0 (IndexByteString (String ":" port) "]")); [lia|].
    reflexivity.
  - (* a name or an IPv4 address: host:port *)
    assert (Elen : len (host +:+ ":" +:+ port) = len host + 1 + len port).
    { rewrite len_app. change (":" +:+ port) with (String ":" port).
      rewrite len_String. lia. }
    assert (Ei : LastIndexByteString (host +:+ ":" +:+ port) ":" = len host).
    { change (":" +:+ port) with (String ":" port).
      apply LastIndexByteString_at_join. assumption. }
    assert (Ehost : sub (host +:+ ":" +:+ port) 0 (len host) = host)
      by apply sub_take.
    assert (Eport : sub (host +:+ ":" +:+ port) (len host + 1)
                      (len host + 1 + len port) = port).
    { replace (host +:+ ":" +:+ port) with ((host +:+ ":") +:+ port)
        by (rewrite app_assoc; reflexivity).
      apply sub_suffix; rewrite len_app; change (len ":") with 1; lia. }
    assert (T1 : IndexByteString (host +:+ ":" +:+ port) "[" < 0).
    { apply IndexByteString_absent_app; [assumption|].
      apply IndexByteString_absent_String; [discriminate|assumption]. }
    assert (T2 : IndexByteString (host +:+ ":" +:+ port) "]" < 0).
    { apply IndexByteString_absent_app; [assumption|].
      apply IndexByteString_absent_String; [discriminate|assumption]. }
    unfold net.SplitHostPort. cbv zeta.
    rewrite (first_byte_absent _ _ T1).
    rewrite Ei, Ehost, !sub_whole, Elen, Eport.
    destruct (Z.ltb_spec (len host) 0); [lia|].
    destruct (Z.leb_spec 0 (IndexByteString host ":")); [lia|].
    destruct (Z.leb_spec 0 (IndexByteString (host +:+ ":" +:+ port) "["));
      [lia|].
    destruct (Z.leb_spec 0 (IndexByteString (host +:+ ":" +:+ port) "]"));
      [lia|].
    reflexivity.
Qed.

End Addresses.

(** ** Construction *)

Section Construction.

Import strings.

Lemma eqb_empty_false (s : string) : s <> "" -> String.eqb s "" = false.
Proof. intros H. apply String.eqb_neq. exact H. Qed.

Lemma slice_from_in_range (s : string) (i : Z) :
  0 <= i <= len s -> slice_from s i = Return (sub s i (len s)).
Proof.
  intros [H0 H1]. unfold slice_from.
  destruct (Z.ltb_spec i 0); [lia|].
  destruct (Z.ltb_spec (len s) i); [lia|]. reflexivity.
Qed.

Lemma slice_from_out_of_range (s : string) (i : Z) :
  len s < i -> slice_from s i = Panic "slice bounds out of range".
Proof.
  intros H. unfold slice_from.
  destruct (Z.ltb_spec i 0); [reflexivity|].
  destruct (Z.ltb_spec (len s) i); [reflexivity|lia].
Qed.

(** Every error of [SplitHostPort] comes with an empty host and port. *)
Lemma SplitHostPort_error (hostport host port : string) (e : liberror) :
  net.SplitHostPort hostport = (host, port, Some e) -> host = "" /\ port = "".
Proof.
  unfold net.SplitHostPort, net.addrErr.
  repeat case_match; intros [= <- <- ?]; try discriminate; split; reflexivity.
Qed.

(** The handle [NewClient] builds once the base address is sliced. *)
Lemma NewClient_sliced (base secret dnsdomain : string) (dnsport : Z)
    (hostport : string) :
  base <> "" ->
  slice_from base 6 = Return hostport ->
  NewClient base secret dnsdomain dnsport =
    Return (Some {| base := base;
                    secret := secret;
                    h := http.zero_Client;
                    basedns := net.JoinHostPort (net.SplitHostPort hostport).1.1
                                 (strconv.Itoa (if dnsport =? 0 then 53 else dnsport));
                    domain := "." +:+ dns.Fqdn dnsdomain;
                    d := dns.zero_Client |},
            None).
Proof.
  intros Hne Hslice. unfold NewClient.
  rewrite (eqb_empty_false _ Hne), Hslice. simpl.
  destruct (net.SplitHostPort hostport) as [[host port] err]. reflexivity.
Qed.

(** For every base address [http://host:port], [base[6:]] starts at the
    second slash of the scheme: the slash stays in the host and in the DNS
    address. *)
Lemma NewClient_http_base (host port secret dnsdomain : string) :
  IndexByteString host ":" < 0 ->
  IndexByteString host "[" < 0 -> IndexByteString host "]" < 0 ->
  IndexByteString port ":" < 0 ->
  IndexByteString port "[" < 0 -> IndexByteString port "]" < 0 ->
  NewClient ("http://" +:+ host +:+ ":" +:+ port) secret dnsdomain 0 =
    Return (Some {| base := "http://" +:+ host +:+ ":" +:+ port;
                    secret := secret;
                    h := http.zero_Client;
                    basedns := "/" +:+ host +:+ ":53";
                    domain := "." +:+ dns.Fqdn dnsdomain;
                    d := dns.zero_Client |},
            None).
Proof.
  intros Hcolon Hopen Hclose Pcolon Popen Pclose.
  assert (Hslash : forall c : ascii, "/"%char <> c -> IndexByteString host c < 0 ->
                     IndexByteString ("/" +:+ host) c < 0).
  { intros c Hne Hc. change ("/" +:+ host) with (String "/" host).
    apply IndexByteString_absent_String; assumption. }
  assert (Hslice : slice_from ("http://" +:+ host +:+ ":" +:+ port) 6
                   = Return ("/" +:+ host +:+ ":" +:+ port)).
  { pose proof (len_nonneg (host +:+ ":" +:+ port)).
    assert (Elen : len ("http://" +:+ host +:+ ":" +:+ port)
                   = 7 + len (host +:+ ":" +:+ port))
      by (rewrite len_app; reflexivity).
    rewrite slice_from_in_range by lia. f_equal.
    apply (sub_suffix "http:/" ("/" +:+ host +:+ ":" +:+ port)); [reflexivity|].
    rewrite <- len_app. reflexivity. }
  assert (Hsplit : net.SplitHostPort ("/" +:+ host +:+ ":" +:+ port)
                   = ("/" +:+ host, port, None)).
  { rewrite <- (SplitHostPort_JoinHostPort ("/" +:+ host) port)
      by (try apply Hslash; try discriminate; assumption).
    unfold net.JoinHostPort.
    destruct (Z.leb_spec 0 (IndexByteString ("/" +:+ host) ":")) as [Hc|_];
      [|reflexivity].
    specialize (Hslash ":"%char ltac:(discriminate) Hcolon). lia. }
  assert (Hne : "http://" +:+ host +:+ ":" +:+ port <> "") by discriminate.
  rewrite (NewClient_sliced _ _ _ _ _ Hne Hslice), Hsplit.
  simpl. unfold net.JoinHostPort.
  destruct (Z.leb_spec 0 (IndexByteString ("/" +:+ host) ":")) as [Hc|_].
  - specialize (Hslash ":"%char ltac:(discriminate) Hcolon). lia.
  - reflexivity.
Qed.

(** C1 (the code at the scenario's input): for the base address
    [http://10.0.0.1:8080], the domain [skydns.local] and port 0,
    [NewClient] succeeds with the domain suffix [.skydns.local.], but the
    DNS address it derives is [/10.0.0.1:53], not [10.0.0.1:53]: the slice
    [base[6:]] keeps the second slash of the scheme. *)
Theorem NewClient_scenario (secret : string) :
  NewClient "http://10.0.0.1:8080" secret "skydns.local" 0 =
    Return (Some {| base := "http://10.0.0.1:8080";
                    secret := secret;
                    h := http.zero_Client;
                    basedns := "/10.0.0.1:53";
                    domain := ".skydns.local.";
                    d := dns.zero_Client |},
            None) /\
  "/10.0.0.1:53" <> "10.0.0.1:53".
Proof.
  split; [|discriminate].
  apply (NewClient_http_base "10.0.0.1" "8080" secret "skydns.local");
    simpl; lia.
Qed.

Lemma long_base_not_empty (base : string) : 6 <= len base -> base <> "".
Proof. intros H ->. change (len "") with 0 in H. lia. Qed.

(** C2 fails as stated, at the three-byte base address [abc]: it is not
    empty, yet with port 0 [NewClient] panics on the slice, so no call
    returns and no DNS address, with port 53 or any other, is derived. *)
Lemma NewClient_no_address_counterexample :
  "abc" <> "" /\
  NewClient "abc" "" "skydns.local" 0 = Panic "slice bounds out of range" /\
  ~ (exists c err, NewClient "abc" "" "skydns.local" 0 = Return (c, err)).
Proof.
  split; [discriminate|]. split; [reflexivity|].
  intros (c & err & H). discriminate.
Qed.

(** C2 (amended): [NewClient] returns [ErrNoHttpAddress] for the empty base
    address and for no other; and for every base address of at least 6
    bytes and port 0 it returns a handle and a nil error, and the handle's
    DNS address is a host joined with port 53: it ends in [:53] and splits
    back into that host and the port [53]. *)
Theorem NewClient_no_address (base secret dnsdomain : string) (dnsport : Z) :
  (base = "" ->
   NewClient base secret dnsdomain dnsport = Return (None, Some ErrNoHttpAddress)) /\
  (base <> "" ->
   forall c, NewClient base secret dnsdomain dnsport
             <> Return (c, Some ErrNoHttpAddress)) /\
  (6 <= len base ->
   exists (cl : Client) (host : string),
     NewClient base secret dnsdomain 0 = Return (Some cl, None) /\
     basedns cl = net.JoinHostPort host "53" /\
     (exists pre, basedns cl = pre +:+ ":53") /\
     net.SplitHostPort (basedns cl) = (host, "53", None)).
Proof.
  split; [|split].
  - intros ->. reflexivity.
  - intros Hne c. unfold NewClient. rewrite (eqb_empty_false _ Hne).
    destruct (slice_from base 6) as [hostport|reason]; simpl; [|discriminate].
    destruct (net.SplitHostPort hostport) as [[host port] err].
    discriminate.
  - intros Hlen.
    pose proof (long_base_not_empty _ Hlen) as Hne.
    assert (Hslice : slice_from base 6 = Return (sub base 6 (len base)))
      by (apply slice_from_in_range; lia).
    rewrite (NewClient_sliced _ _ _ _ _ Hne Hslice).
    destruct (net.SplitHostPort (sub base 6 (len base)))
      as [[host port] e] eqn:Hsplit.
    destruct (SplitHostPort_host_clean _ _ _ _ Hsplit) as [Hopen Hclose].
    eexists. exists host. split; [reflexivity|].
    change (strconv.Itoa (if 0 =? 0 then 53 else 0)) with "53".
    simpl. split; [reflexivity|split].
    + unfold net.JoinHostPort.
      destruct (0 <=? IndexByteString host ":").
      * exists ("[" +:+ host +:+ "]").
        rewrite !app_assoc. reflexivity.
      * exists host. reflexivity.
    + apply SplitHostPort_JoinHostPort; try assumption; simpl; lia.
Qed.

(** C8 fails as stated, at the three-byte base address [abc]: it is not
    empty and holds no host:port that parses (the slice [base[6:]] is out of
    range, and [abc] itself has no port), yet [NewClient] does not succeed:
    it panics. *)
Lemma NewClient_parse_error_discarded_counterexample :
  "abc" <> "" /\
  slice_from "abc" 6 = Panic "slice bounds out of range" /\
  net.SplitHostPort "abc" = ("", "", Some (AddrError net.missingPort "abc")) /\
  NewClient "abc" "" "skydns.local" 0 = Panic "slice bounds out of range" /\
  ~ (exists c, NewClient "abc" "" "skydns.local" 0 = Return (Some c, None)).
Proof.
  split; [discriminate|]. repeat (split; [reflexivity|]).
  intros (c & H). discriminate.
Qed.

(** C8 (amended): for every base address of at least 6 bytes whose
    host:port part [base[6:]] is rejected by [SplitHostPort], [NewClient]
    still returns a handle and a nil error: the parse error is dropped, the
    host is empty, and the DNS address is the bare port. *)
Theorem NewClient_parse_error_discarded (base secret dnsdomain : string)
    (dnsport : Z) (host port : string) (e : liberror) :
  6 <= len base ->
  net.SplitHostPort (sub base 6 (len base)) = (host, port, Some e) ->
  exists c : Client,
    NewClient base secret dnsdomain dnsport = Return (Some c, None) /\
    basedns c = ":" +:+ strconv.Itoa (if dnsport =? 0 then 53 else dnsport).
Proof.
  intros Hlen Hsplit.
  pose proof (long_base_not_empty _ Hlen) as Hne.
  assert (Hslice : slice_from base 6 = Return (sub base 6 (len base)))
    by (apply slice_from_in_range; lia).
  eexists. split.
  - apply NewClient_sliced; eassumption.
  - simpl. rewrite Hsplit. simpl.
    destruct (SplitHostPort_error _ _ _ _ Hsplit) as [-> _]. reflexivity.
Qed.

(** [NewClient] panics on the non-empty base addresses of fewer than 6
    bytes, and on no other input. *)
Lemma NewClient_panics_iff (base secret dnsdomain : string) (dnsport : Z) :
  panics (NewClient base secret dnsdomain dnsport) <->
  base <> "" /\ len base < 6.
Proof.
  split.
  - intros [reason E]. unfold NewClient in E.
    destruct (String.eqb_spec base "") as [->|Hne]; [discriminate|].
    split; [exact Hne|].
    destruct (Z.lt_ge_cases (len base) 6) as [|Hge]; [assumption|].
    rewrite slice_from_in_range in E by lia. simpl in E.
    destruct (net.SplitHostPort _) as [[host port] err]. discriminate.
  - intros [Hne Hlen]. exists "slice bounds out of range".
    unfold NewClient.
    rewrite (eqb_empty_false _ Hne), (slice_from_out_of_range _ _ Hlen).
    reflexivity.
Qed.

(** C10: a base address that is not empty and has fewer than 6 bytes makes
    [NewClient] panic on the slice [base[6:]]: it returns neither a handle
    nor an error. *)
Theorem NewClient_short_base_panics (base secret dnsdomain : string) (dnsport : Z) :
  base <> "" ->
  len base < 6 ->
  NewClient base secret dnsdomain dnsport = Panic "slice bounds out of range" /\
  ~ returns (NewClient base secret dnsdomain dnsport).
Proof.
  intros Hne Hlen.
  assert (E : NewClient base secret dnsdomain dnsport
              = Panic "slice bounds out of range").
  { unfold NewClient.
    rewrite (eqb_empty_false _ Hne), (slice_from_out_of_range _ _ Hlen).
    reflexivity. }
  split; [exact E|].
  rewrite E. intros [a Ha]. discriminate.
Qed.

End Construction.

(** ** The properties at concrete inputs *)

Section Examples.

Import strings.

(** C9 (the code at a failing input): with a secret configured, a request
    that [http.NewRequest] cannot build makes the request builder panic on
    the nil request instead of handing the error back. *)
Theorem newRequest_secret_panics :
  newRequest (W := malformed_World) (example_Client "s3cret")
    "GET" "http://10.0.0.1:8080/skydns/services/%zz" None
  = Panic nil_deref.
Proof.
  rewrite (newRequest_when_construction_fails (W := malformed_World)
             (example_Client "s3cret") "GET" _ None _ eq_refl).
  reflexivity.
Qed.

(** The empty base address, and the scenario's base address with port 0. *)
Lemma NewClient_no_address_witness :
  NewClient "" "s3cret" "skydns.local" 0 = Return (None, Some ErrNoHttpAddress) /\
  exists (cl : Client) (host : string),
    NewClient "http://10.0.0.1:8080" "s3cret" "skydns.local" 0
      = Return (Some cl, None) /\
    basedns cl = net.JoinHostPort host "53" /\
    (exists pre, basedns cl = pre +:+ ":53") /\
    net.SplitHostPort (basedns cl) = (host, "53", None).
Proof.
  split.
  - apply (NewClient_no_address "" "s3cret" "skydns.local" 0). reflexivity.
  - apply (NewClient_no_address "http://10.0.0.1:8080" "s3cret" "skydns.local" 0).
    unfold len. simpl. lia.
Defined.

(** A base address without a port: [SplitHostPort] reports a missing port. *)
Lemma NewClient_parse_error_discarded_witness :
  exists c : Client,
    NewClient "http://10.0.0.1" "" "skydns.local" 0 = Return (Some c, None) /\
    basedns c = ":" +:+ strconv.Itoa (if 0 =? 0 then 53 else 0).
Proof.
  apply (NewClient_parse_error_discarded "http://10.0.0.1" "" "skydns.local" 0
           "" "" (AddrError net.missingPort "/10.0.0.1"));
    [unfold len; simpl; lia|reflexivity].
Defined.

(** A base address of five bytes. *)
Lemma NewClient_short_base_panics_witness :
  NewClient "http:" "" "skydns.local" 0 = Panic "slice bounds out of range" /\
  ~ returns (NewClient "http:" "" "skydns.local" 0).
Proof.
  apply NewClient_short_base_panics; [discriminate|unfold len; simpl; lia].
Defined.

(** A server that answers 409 to a registration. *)
Lemma Add_status_mapping_witness :
  Add (W := canned_World 409 None) (example_Client "s3cret") "1001" (Some "{}")
  = Return (Some ErrConflictingUUID).
Proof.
  eapply (Add_status_mapping (W := canned_World 409 None)
            (example_Client "s3cret") "1001" (Some "{}") "{}"
            (http.mkResponse 409 None)).
  - reflexivity.
  - eexists. split; reflexivity.
  - reflexivity.
Defined.

(** A server that answers 200 with an object. *)
Lemma Get_status_mapping_witness :
  Get (W := canned_World 200 (Some "{}")) (example_Client "") "1001"
  = Return (Some "{}", None).
Proof.
  eapply (Get_status_mapping (W := canned_World 200 (Some "{}"))
            (example_Client "") "1001" (http.mkResponse 200 (Some "{}"))).
  - eexists. split; reflexivity.
  - reflexivity.
  - reflexivity.
  - reflexivity.
Defined.

(** Servers that answer 404 to a deletion and 500 to an update. *)
Lemma Delete_Update_ignore_status_witness :
  Delete (W := canned_World 404 None) (example_Client "") "1001" = Return None /\
  Update (W := canned_World 500 None) (example_Client "") "1001" 30 = Return None.
Proof.
  split.
  - eapply (Delete_Update_ignore_status (W := canned_World 404 None)
              (example_Client "") "1001" 30).
    eexists. split; reflexivity.
  - eapply (Delete_Update_ignore_status (W := canned_World 500 None)
              (example_Client "") "1001" 30).
    eexists. split; reflexivity.
Defined.

(** A server that answers 404 to a callback registration. *)
Lemma AddCallback_status_mapping_witness :
  AddCallback (W := canned_World 404 None) (example_Client "s3cret") "1001"
    (Some "{}")
  = Return (Some ErrServiceNotFound).
Proof.
  eapply (AddCallback_status_mapping (W := canned_World 404 None)
            (example_Client "s3cret") "1001" (Some "{}") "{}"
            (http.mkResponse 404 None)).
  - reflexivity.
  - eexists. split; reflexivity.
  - reflexivity.
Defined.

(** A DNS server that answers the query. *)
Lemma GetRegionsDNS_empty_witness :
  exists out : NameCount,
    GetRegionsDNS (W := canned_World 200 None) (example_Client "") = Return (out, None) /\
    NameCount_len out = 0 /\
    forall name, NameCount_get out name = None.
Proof.
  eapply (GetRegionsDNS_empty (W := canned_World 200 None) (example_Client "")).
  eexists. split; reflexivity.
Defined.

End Examples.

(** * Further properties of the client *)

(** ** The request builder and the ways a round trip can end *)

Section RoundTrips.

Context {W : World}.

Lemma newRequest_builds (c : Client) (method url : string)
    (body : option string) (r : http.Request) :
  http_NewRequest method url body = inl r ->
  newRequest c method url body =
    Return (Some (if String.eqb (secret c) "" then r
                  else http.Request_Header_Add r "Authorization" (secret c)),
            None).
Proof.
  intros E. unfold newRequest. rewrite E. simpl.
  destruct (String.eqb (secret c) ""); reflexivity.
Qed.

(** When [http.NewRequest] succeeds the builder never fails: it hands the
    request back with method, URL and body untouched.  Without a secret the
    request is returned as it is; with one, the secret is appended, verbatim,
    to the values of [Authorization], and no other header changes. *)
Theorem newRequest_attaches_secret (c : Client) (method url : string)
    (body : option string) (r : http.Request) :
  http_NewRequest method url body = inl r ->
  exists req : http.Request,
    newRequest c method url body = Return (Some req, None) /\
    http.Method req = http.Method r /\
    http.URL req = http.URL r /\
    http.ReqBody req = http.ReqBody r /\
    (secret c = "" -> req = r) /\
    (secret c <> "" ->
     http.Header req !! "Authorization"
       = Some (default [] (http.Header r !! "Authorization") ++ [secret c])%list /\
     forall key, key <> "Authorization" ->
                 http.Header req !! key = http.Header r !! key).
Proof.
  intros E. rewrite (newRequest_builds _ _ _ _ _ E).
  destruct (String.eqb_spec (secret c) "") as [Hs|Hs].
  - exists r. repeat split; try reflexivity; contradiction.
  - eexists. split; [reflexivity|]. simpl.
    split; [reflexivity|]. split; [reflexivity|]. split; [reflexivity|].
    split; [intros Hs'; contradiction|]. intros _. split.
    + unfold http.Header_Add. apply lookup_insert_eq.
    + intros key Hkey. unfold http.Header_Add.
      apply lookup_insert_ne. congruence.
Qed.

(** The four ways the request of an operation can end, with what the
    builder and the transport hand back in each. *)
Lemma round_trip_cases (c : Client) (method url : string) (body : option string) :
  (builder_panics c method url body /\
   newRequest c method url body = Panic nil_deref) \/
  (exists e, (secret c = "" /\ http_NewRequest method url body = inr e) /\
             newRequest c method url body = Return (None, Some (LibError e))) \/
  (exists req e, newRequest c method url body = Return (Some req, None) /\
                 http_Do req = inr e) \/
  (exists resp, round_trip c method url body resp).
Proof.
  destruct (http_NewRequest method url body) as [r|e] eqn:E.
  - pose proof (newRequest_builds c _ _ _ _ E) as Ereq.
    right. right.
    match type of Ereq with _ = Return (Some ?r', None) => set (req := r') in * end.
    destruct (http_Do req) as [resp|e] eqn:Edo.
    + right. exists resp, req. split; assumption.
    + left. exists req, e. split; assumption.
  - pose proof (newRequest_when_construction_fails c _ _ _ _ E) as Hreq.
    destruct (String.eqb_spec (secret c) "") as [Hs|Hs].
    + right. left. exists e.
      split; [split; [exact Hs|first [exact E|reflexivity]]|exact Hreq].
    + left. split; [|exact Hreq]. split; [exact Hs|].
      exists e. first [exact E|reflexivity].
Qed.

(** The cases exclude one another. *)
Lemma round_trip_not_builder_panics (c : Client) (method url : string)
    (body : option string) (resp : http.Response) :
  round_trip c method url body resp -> ~ builder_panics c method url body.
Proof.
  intros (req & Ereq & _) (Hs & e & E).
  rewrite (newRequest_when_construction_fails c _ _ _ _ E) in Ereq.
  destruct (String.eqb_spec (secret c) ""); [contradiction|discriminate].
Qed.

End RoundTrips.

(** ** Every way an operation can end *)

Section Outcomes.

Context {W : World}.

(** Splits on how the request of an operation ends and runs the operation
    that far. *)
Ltac by_request_cases c method url body :=
  let e := fresh "e" in
  let req := fresh "req" in
  let resp := fresh "resp" in
  let Hpanic := fresh "Hpanic" in
  let Hfail := fresh "Hfail" in
  let Ereq := fresh "Ereq" in
  let Edo := fresh "Edo" in
  let Hrt := fresh "Hrt" in
  destruct (round_trip_cases c method url body)
    as [[Hpanic Ereq] | [(e & Hfail & Ereq)
       | [(req & e & Ereq & Edo) | (resp & Hrt)]]];
  [ rewrite Ereq; simpl; left; split; [exact Hpanic|reflexivity]
  | rewrite Ereq; simpl; right; left; exists e;
    split; [left; exact Hfail|reflexivity]
  | rewrite Ereq; simpl; rewrite Edo; simpl; right; left; exists e;
    split; [right; exists req; split; assumption|reflexivity]
  | right; right; exists resp; split; [exact Hrt|];
    destruct Hrt as (req & Ereq & Edo);
    rewrite Ereq; simpl; rewrite Edo; simpl; try reflexivity ].

Lemma Delete_cases (c : Client) (uuid : string) :
  (builder_panics c "DELETE" (joinUrl c uuid) None /\
   Delete c uuid = Panic nil_deref) \/
  (exists e, request_fails c "DELETE" (joinUrl c uuid) None e /\
             Delete c uuid = Return (Some (LibError e))) \/
  (exists resp, round_trip c "DELETE" (joinUrl c uuid) None resp /\
                Delete c uuid = Return None).
Proof. unfold Delete. by_request_cases c "DELETE" (joinUrl c uuid) (@None string). Qed.

Lemma Update_cases (c : Client) (uuid : string) (ttl : Z) :
  (builder_panics c "PATCH" (joinUrl c uuid) (Some (ttl_body ttl)) /\
   Update c uuid ttl = Panic nil_deref) \/
  (exists e, request_fails c "PATCH" (joinUrl c uuid) (Some (ttl_body ttl)) e /\
             Update c uuid ttl = Return (Some (LibError e))) \/
  (exists resp, round_trip c "PATCH" (joinUrl c uuid) (Some (ttl_body ttl)) resp /\
                Update c uuid ttl = Return None).
Proof.
  unfold Update. cbv zeta.
  by_request_cases c "PATCH" (joinUrl c uuid) (Some (ttl_body ttl)).
Qed.

Lemma Get_cases (c : Client) (uuid : string) :
  (builder_panics c "GET" (joinUrl c uuid) None /\
   Get c uuid = Panic nil_deref) \/
  (exists e, request_fails c "GET" (joinUrl c uuid) None e /\
             Get c uuid = Return (None, Some (LibError e))) \/
  (exists resp,
     round_trip c "GET" (joinUrl c uuid) None resp /\
     Get c uuid =
       if http.StatusCode resp =? 200 then
         match http.Body resp with
         | None => Panic nil_deref
         | Some body =>
             match json_Decode_Service body with
             | inl s => Return (s, None)
             | inr e => Return (None, Some (LibError e))
             end
         end
       else if http.StatusCode resp =? 404
       then Return (None, Some ErrServiceNotFound)
       else Return (None, Some ErrInvalidResponse)).
Proof.
  unfold Get. by_request_cases c "GET" (joinUrl c uuid) (@None string).
  unfold http.StatusOK, http.StatusNotFound.
  destruct (http.StatusCode resp =? 200); [|reflexivity].
  destruct (http.Body resp) as [body|]; simpl; [|reflexivity].
  destruct (json_Decode_Service body); reflexivity.
Qed.

Lemma get_and_decode_cases {A : Type} (c : Client) (url : string)
    (decoder : string -> option A + liberror) :
  (builder_panics c "GET" url None /\
   get_and_decode c url decoder = Panic nil_deref) \/
  (exists e, request_fails c "GET" url None e /\
             get_and_decode c url decoder = Return (None, Some (LibError e))) \/
  (exists resp,
     round_trip c "GET" url None resp /\
     get_and_decode c url decoder =
       match http.Body resp with
       | None => Panic nil_deref
       | Some body =>
           match decoder body with
           | inl out => Return (out, None)
           | inr e => Return (None, Some (LibError e))
           end
       end).
Proof.
  unfold get_and_decode. by_request_cases c "GET" url (@None string).
  destruct (http.Body resp) as [body|]; simpl; [|reflexivity].
  destruct (decoder body); reflexivity.
Qed.

Lemma Add_cases (c : Client) (uuid : string) (s : option Service) :
  (exists e, json_Encode_Service s = inr e /\
             Add c uuid s = Return (Some (LibError e))) \/
  (exists b,
     json_Encode_Service s = inl b /\
     ((builder_panics c "PUT" (joinUrl c uuid) (Some b) /\
       Add c uuid s = Panic nil_deref) \/
      (exists e, request_fails c "PUT" (joinUrl c uuid) (Some b) e /\
                 Add c uuid s = Return (Some (LibError e))) \/
      (exists resp,
         round_trip c "PUT" (joinUrl c uuid) (Some b) resp /\
         Add c uuid s =
           Return (if http.StatusCode resp =? 201 then None
                   else if http.StatusCode resp =? 409
                        then Some ErrConflictingUUID
                        else Some ErrInvalidResponse)))).
Proof.
  unfold Add. destruct (json_Encode_Service s) as [b|e].
  - right. exists b. split; [reflexivity|].
    by_request_cases c "PUT" (joinUrl c uuid) (Some b).
    unfold http.StatusCreated, http.StatusConflict.
    destruct (http.StatusCode resp =? 201); [reflexivity|].
    destruct (http.StatusCode resp =? 409); reflexivity.
  - left. exists e. split; reflexivity.
Qed.

Lemma AddCallback_cases (c : Client) (uuid : string) (cb : option Callback) :
  (exists e, json_Encode_Callback cb = inr e /\
             AddCallback c uuid cb = Return (Some (LibError e))) \/
  (exists buf,
     json_Encode_Callback cb = inl buf /\
     ((builder_panics c "PUT" (base c +:+ "/skydns/callbacks/" +:+ uuid) (Some buf) /\
       AddCallback c uuid cb = Panic nil_deref) \/
      (exists e,
         request_fails c "PUT" (base c +:+ "/skydns/callbacks/" +:+ uuid) (Some buf) e /\
         AddCallback c uuid cb = Return (Some (LibError e))) \/
      (exists resp,
         round_trip c "PUT" (base c +:+ "/skydns/callbacks/" +:+ uuid) (Some buf) resp /\
         AddCallback c uuid cb =
           Return (if http.StatusCode resp =? 201 then None
                   else if http.StatusCode resp =? 404
                        then Some ErrServiceNotFound
                        else Some ErrInvalidResponse)))).
Proof.
  unfold AddCallback. destruct (json_Encode_Callback cb) as [buf|e].
  - right. exists buf. split; [reflexivity|].
    by_request_cases c "PUT" (base c +:+ "/skydns/callbacks/" +:+ uuid) (Some buf).
    unfold http.StatusCreated, http.StatusNotFound.
    destruct (http.StatusCode resp =? 201); [reflexivity|].
    destruct (http.StatusCode resp =? 404); reflexivity.
  - left. exists e. split; reflexivity.
Qed.

End Outcomes.

(** ** What the outcomes of the operations tell the caller *)

Section Guarantees.

Context {W : World}.

Ltac run_round_trip H :=
  let req := fresh "req" in
  let Ereq := fresh "Ereq" in
  let Edo := fresh "Edo" in
  destruct H as (req & Ereq & Edo);
  rewrite Ereq; simpl; rewrite Edo; simpl.

Ltac run_failure H :=
  let Hs := fresh "Hs" in
  let E := fresh "E" in
  let req := fresh "req" in
  let Ereq := fresh "Ereq" in
  let Edo := fresh "Edo" in
  destruct H as [[Hs E] | (req & Ereq & Edo)];
  [ rewrite (newRequest_when_construction_fails _ _ _ _ _ E), Hs; simpl
  | rewrite Ereq; simpl; rewrite Edo; simpl ].

(** [Add] returns a nil error only when the record was encoded, the round
    trip completed and the server answered 201; and then it does. *)
Theorem Add_success_iff (c : Client) (uuid : string) (s : option Service) :
  Add c uuid s = Return None <->
  exists b resp,
    json_Encode_Service s = inl b /\
    round_trip c "PUT" (joinUrl c uuid) (Some b) resp /\
    http.StatusCode resp = 201.
Proof.
  split.
  - intros H.
    destruct (Add_cases c uuid s)
      as [(e & _ & E) | (b & Eb & [[_ E] | [(e & _ & E) | (resp & Hrt & E)]])];
      rewrite E in H; try discriminate.
    exists b, resp. split; [exact Eb|]. split; [exact Hrt|].
    destruct (Z.eqb_spec (http.StatusCode resp) 201); [assumption|].
    destruct (http.StatusCode resp =? 409); discriminate.
  - intros (b & resp & Eb & Hrt & Hst).
    unfold Add. rewrite Eb. run_round_trip Hrt. rewrite Hst. reflexivity.
Qed.

(** [AddCallback] returns a nil error only when the callback was encoded,
    the round trip completed and the server answered 201; and then it
    does. *)
Theorem AddCallback_success_iff (c : Client) (uuid : string)
    (cb : option Callback) :
  AddCallback c uuid cb = Return None <->
  exists buf resp,
    json_Encode_Callback cb = inl buf /\
    round_trip c "PUT" (base c +:+ "/skydns/callbacks/" +:+ uuid) (Some buf) resp /\
    http.StatusCode resp = 201.
Proof.
  split.
  - intros H.
    destruct (AddCallback_cases c uuid cb)
      as [(e & _ & E) | (b & Eb & [[_ E] | [(e & _ & E) | (resp & Hrt & E)]])];
      rewrite E in H; try discriminate.
    exists b, resp. split; [exact Eb|]. split; [exact Hrt|].
    destruct (Z.eqb_spec (http.StatusCode resp) 201); [assumption|].
    destruct (http.StatusCode resp =? 404); discriminate.
  - intros (b & resp & Eb & Hrt & Hst).
    unfold AddCallback. rewrite Eb. run_round_trip Hrt. rewrite Hst. reflexivity.
Qed.

(** [Get] returns a record only when the round trip completed with status
    200 and a body that decodes to that record, and then it does; a record
    never comes with an error. *)
Theorem Get_record_iff (c : Client) (uuid : string) (s : Service) :
  (forall err, Get c uuid = Return (Some s, err) -> err = None) /\
  (Get c uuid = Return (Some s, None) <->
   exists resp body,
     round_trip c "GET" (joinUrl c uuid) None resp /\
     http.StatusCode resp = 200 /\
     http.Body resp = Some body /\
     json_Decode_Service body = inl (Some s)).
Proof.
  assert (Hinv : forall err, Get c uuid = Return (Some s, err) ->
            err = None /\
            exists resp body,
              round_trip c "GET" (joinUrl c uuid) None resp /\
              http.StatusCode resp = 200 /\
              http.Body resp = Some body /\
              json_Decode_Service body = inl (Some s)).
  { intros err H.
    destruct (Get_cases c uuid)
      as [[_ E] | [(e & _ & E) | (resp & Hrt & E)]];
      rewrite E in H; try discriminate.
    destruct (Z.eqb_spec (http.StatusCode resp) 200) as [Hst|_].
    - destruct (http.Body resp) as [body|] eqn:Hbody; [|discriminate].
      destruct (json_Decode_Service body) as [r|e] eqn:Hdec; [|discriminate].
      injection H as -> <-. split; [reflexivity|].
      exists resp, body. repeat split; assumption.
    - destruct (http.StatusCode resp =? 404); discriminate. }
  split; [intros err H; apply (Hinv err H)|].
  split.
  - intros H. apply (Hinv None H).
  - intros (resp & body & Hrt & Hst & Hbody & Hdec).
    unfold Get. run_round_trip Hrt. rewrite Hst. simpl.
    rewrite Hbody. simpl. rewrite Hdec. reflexivity.
Qed.

(** [Delete] and [Update] return a nil error exactly when their round trip
    completes, whatever the server answered. *)
Theorem Delete_Update_success_iff (c : Client) (uuid : string) (ttl : Z) :
  (Delete c uuid = Return None <->
   exists resp, round_trip c "DELETE" (joinUrl c uuid) None resp) /\
  (Update c uuid ttl = Return None <->
   exists resp, round_trip c "PATCH" (joinUrl c uuid) (Some (ttl_body ttl)) resp).
Proof.
  split; split.
  - intros H.
    destruct (Delete_cases c uuid) as [[_ E] | [(e & _ & E) | (resp & Hrt & E)]];
      rewrite E in H; try discriminate.
    exists resp. exact Hrt.
  - intros (resp & Hrt). unfold Delete. run_round_trip Hrt. reflexivity.
  - intros H.
    destruct (Update_cases c uuid ttl)
      as [[_ E] | [(e & _ & E) | (resp & Hrt & E)]];
      rewrite E in H; try discriminate.
    exists resp. exact Hrt.
  - intros (resp & Hrt). unfold Update. run_round_trip Hrt. reflexivity.
Qed.

(** A request that fails, at construction without a secret or in the
    transport, makes every HTTP operation return that very error, with no
    value beside it. *)
Theorem request_error_returned (c : Client) (uuid : string) (e : liberror) :
  (forall s b, json_Encode_Service s = inl b ->
               request_fails c "PUT" (joinUrl c uuid) (Some b) e ->
               Add c uuid s = Return (Some (LibError e))) /\
  (request_fails c "DELETE" (joinUrl c uuid) None e ->
   Delete c uuid = Return (Some (LibError e))) /\
  (request_fails c "GET" (joinUrl c uuid) None e ->
   Get c uuid = Return (None, Some (LibError e))) /\
  (forall ttl, request_fails c "PATCH" (joinUrl c uuid) (Some (ttl_body ttl)) e ->
               Update c uuid ttl = Return (Some (LibError e))) /\
  (request_fails c "GET" (joinUrl c "") None e ->
   GetAllServices c = Return (None, Some (LibError e))) /\
  (request_fails c "GET" (base c +:+ "/skydns/regions/") None e ->
   GetRegions c = Return (None, Some (LibError e))) /\
  (request_fails c "GET" (base c +:+ "/skydns/environments/") None e ->
   GetEnvironments c = Return (None, Some (LibError e))) /\
  (forall cb buf, json_Encode_Callback cb = inl buf ->
                  request_fails c "PUT" (base c +:+ "/skydns/callbacks/" +:+ uuid)
                    (Some buf) e ->
                  AddCallback c uuid cb = Return (Some (LibError e))).
Proof.
  repeat apply conj.
  - intros s b Eb H. unfold Add. rewrite Eb. run_failure H; reflexivity.
  - intros H. unfold Delete. run_failure H; reflexivity.
  - intros H. unfold Get. run_failure H; reflexivity.
  - intros ttl H. unfold Update. cbv zeta. run_failure H; reflexivity.
  - intros H. unfold GetAllServices, get_and_decode. run_failure H; reflexivity.
  - intros H. unfold GetRegions, get_and_decode. run_failure H; reflexivity.
  - intros H. unfold GetEnvironments, get_and_decode. run_failure H; reflexivity.
  - intros cb buf Eb H. unfold AddCallback. rewrite Eb. run_failure H; reflexivity.
Qed.

(** The three decoding reads never look at the status code: once the round
    trip completes with a body, the result is what the decoder makes of the
    body, its error included, for every status. *)
Theorem reads_ignore_status (c : Client) (resp : http.Response) (body : string) :
  http.Body resp = Some body ->
  (round_trip c "GET" (joinUrl c "") None resp ->
   GetAllServices c =
     Return (match json_Decode_Services body with
             | inl out => (out, None)
             | inr e => (None, Some (LibError e))
             end)) /\
  (round_trip c "GET" (base c +:+ "/skydns/regions/") None resp ->
   GetRegions c =
     Return (match json_Decode_NameCount body with
             | inl out => (out, None)
             | inr e => (None, Some (LibError e))
             end)) /\
  (round_trip c "GET" (base c +:+ "/skydns/environments/") None resp ->
   GetEnvironments c =
     Return (match json_Decode_NameCount body with
             | inl out => (out, None)
             | inr e => (None, Some (LibError e))
             end)).
Proof.
  intros Hbody. repeat apply conj; intros Hrt.
  - unfold GetAllServices, get_and_decode. run_round_trip Hrt.
    rewrite Hbody. simpl. destruct (json_Decode_Services body); reflexivity.
  - unfold GetRegions, get_and_decode. run_round_trip Hrt.
    rewrite Hbody. simpl. destruct (json_Decode_NameCount body); reflexivity.
  - unfold GetEnvironments, get_and_decode. run_round_trip Hrt.
    rewrite Hbody. simpl. destruct (json_Decode_NameCount body); reflexivity.
Qed.

End Guarantees.

(** ** Which errors and panics an operation can produce *)

Section Limits.

Context {W : World}.

Lemma sentinel_not_LibError (e : error) (le : liberror) :
  e ∈ sentinels -> e <> LibError le.
Proof.
  unfold sentinels. rewrite !elem_of_cons, elem_of_nil.
  intros [->|[->|[->|[->|[]]]]]; discriminate.
Qed.

(** The sentinels each operation can return: [Add] only
    [ErrConflictingUUID] and [ErrInvalidResponse]; [AddCallback] and [Get]
    only [ErrServiceNotFound] and [ErrInvalidResponse]; [Delete], [Update],
    the three decoding reads and the DNS query none at all. *)
Theorem sentinels_by_operation (c : Client) (uuid : string) (e : error) :
  e ∈ sentinels ->
  (forall s, Add c uuid s = Return (Some e) ->
             e = ErrConflictingUUID \/ e = ErrInvalidResponse) /\
  (forall cb, AddCallback c uuid cb = Return (Some e) ->
              e = ErrServiceNotFound \/ e = ErrInvalidResponse) /\
  (forall r, Get c uuid = Return (r, Some e) ->
             e = ErrServiceNotFound \/ e = ErrInvalidResponse) /\
  Delete c uuid <> Return (Some e) /\
  (forall ttl, Update c uuid ttl <> Return (Some e)) /\
  (forall r, GetAllServices c <> Return (r, Some e)) /\
  (forall r, GetRegions c <> Return (r, Some e)) /\
  (forall r, GetEnvironments c <> Return (r, Some e)) /\
  (forall r, GetRegionsDNS c <> Return (r, Some e)).
Proof.
  intros He.
  assert (Hlib : forall le, e <> LibError le)
    by (intros le; apply sentinel_not_LibError; exact He).
  assert (Hdecode : forall (A : Type) url (decoder : string -> option A + liberror) r,
            get_and_decode c url decoder <> Return (r, Some e)).
  { intros A url decoder r H.
    destruct (get_and_decode_cases c url decoder)
      as [[_ E] | [(le & _ & E) | (resp & _ & E)]]; rewrite E in H.
    - discriminate.
    - injection H as _ H. exact (Hlib le (eq_sym H)).
    - destruct (http.Body resp) as [body|]; [|discriminate].
      destruct (decoder body) as [out|le]; [discriminate|].
      injection H as _ H. exact (Hlib le (eq_sym H)). }
  repeat apply conj.
  - intros s H.
    destruct (Add_cases c uuid s)
      as [(le & _ & E) | (b & _ & [[_ E] | [(le & _ & E) | (resp & _ & E)]])];
      rewrite E in H; try discriminate.
    + injection H as H. destruct (Hlib le (eq_sym H)).
    + injection H as H. destruct (Hlib le (eq_sym H)).
    + destruct (http.StatusCode resp =? 201); [discriminate|].
      destruct (http.StatusCode resp =? 409); injection H as <-; auto.
  - intros cb H.
    destruct (AddCallback_cases c uuid cb)
      as [(le & _ & E) | (b & _ & [[_ E] | [(le & _ & E) | (resp & _ & E)]])];
      rewrite E in H; try discriminate.
    + injection H as H. destruct (Hlib le (eq_sym H)).
    + injection H as H. destruct (Hlib le (eq_sym H)).
    + destruct (http.StatusCode resp =? 201); [discriminate|].
      destruct (http.StatusCode resp =? 404); injection H as <-; auto.
  - intros r H.
    destruct (Get_cases c uuid) as [[_ E] | [(le & _ & E) | (resp & _ & E)]];
      rewrite E in H; try discriminate.
    + injection H as _ H. destruct (Hlib le (eq_sym H)).
    + destruct (http.StatusCode resp =? 200).
      * destruct (http.Body resp) as [body|]; [|discriminate].
        destruct (json_Decode_Service body) as [s|le]; [discriminate|].
        injection H as _ H. destruct (Hlib le (eq_sym H)).
      * destruct (http.StatusCode resp =? 404); injection H as _ <-; auto.
  - intros H.
    destruct (Delete_cases c uuid) as [[_ E] | [(le & _ & E) | (resp & _ & E)]];
      rewrite E in H; try discriminate.
    injection H as H. exact (Hlib le (eq_sym H)).
  - intros ttl H.
    destruct (Update_cases c uuid ttl)
      as [[_ E] | [(le & _ & E) | (resp & _ & E)]];
      rewrite E in H; try discriminate.
    injection H as H. exact (Hlib le (eq_sym H)).
  - intros r. apply Hdecode.
  - intros r. apply Hdecode.
  - intros r. apply Hdecode.
  - intros r H. unfold GetRegionsDNS in H. simpl in H.
    destruct (dns_Exchange _ _) as [resp|le]; simpl in H; [discriminate|].
    injection H as _ H. exact (Hlib le (eq_sym H)).
Qed.

(** No operation panics when the request can be built whenever a secret is
    configured and the transport never hands back a response without a
    body: each of them returns. *)
Theorem operations_do_not_panic (c : Client) (uuid : string) :
  (secret c = "" \/ forall method url body, exists r,
                      http_NewRequest method url body = inl r) ->
  (forall req resp, http_Do req = inl resp -> http.Body resp <> None) ->
  (forall s, returns (Add c uuid s)) /\
  returns (Delete c uuid) /\
  returns (Get c uuid) /\
  (forall ttl, returns (Update c uuid ttl)) /\
  returns (GetAllServices c) /\
  returns (GetRegions c) /\
  returns (GetEnvironments c) /\
  returns (GetRegionsDNS c) /\
  (forall cb, returns (AddCallback c uuid cb)).
Proof.
  intros Hbuild Hbody.
  assert (Hnp : forall method url body, ~ builder_panics c method url body).
  { intros method url body [Hs [e E]].
    destruct Hbuild as [Hs'|Hb]; [contradiction|].
    destruct (Hb method url body) as [r Er]. congruence. }
  assert (Hb : forall method url body resp,
            round_trip c method url body resp -> exists b, http.Body resp = Some b).
  { intros method url body resp (req & _ & Edo).
    specialize (Hbody _ _ Edo).
    destruct (http.Body resp) as [b|]; [exists b; reflexivity|contradiction]. }
  assert (Hdecode : forall (A : Type) url (decoder : string -> option A + liberror),
            returns (get_and_decode c url decoder)).
  { intros A url decoder.
    destruct (get_and_decode_cases c url decoder)
      as [[Hp _] | [(le & _ & E) | (resp & Hrt & E)]].
    - destruct (Hnp _ _ _ Hp).
    - rewrite E. eexists. reflexivity.
    - rewrite E. destruct (Hb _ _ _ _ Hrt) as [b ->].
      destruct (decoder b); eexists; reflexivity. }
  repeat apply conj.
  - intros s.
    destruct (Add_cases c uuid s)
      as [(le & _ & E) | (b & _ & [[Hp _] | [(le & _ & E) | (resp & _ & E)]])];
      try (destruct (Hnp _ _ _ Hp)); rewrite E; eexists; reflexivity.
  - destruct (Delete_cases c uuid) as [[Hp _] | [(le & _ & E) | (resp & _ & E)]];
      try (destruct (Hnp _ _ _ Hp)); rewrite E; eexists; reflexivity.
  - destruct (Get_cases c uuid) as [[Hp _] | [(le & _ & E) | (resp & Hrt & E)]].
    + destruct (Hnp _ _ _ Hp).
    + rewrite E. eexists. reflexivity.
    + rewrite E. destruct (Hb _ _ _ _ Hrt) as [b ->].
      destruct (http.StatusCode resp =? 200).
      * destruct (json_Decode_Service b); eexists; reflexivity.
      * destruct (http.StatusCode resp =? 404); eexists; reflexivity.
  - intros ttl.
    destruct (Update_cases c uuid ttl)
      as [[Hp _] | [(le & _ & E) | (resp & _ & E)]];
      try (destruct (Hnp _ _ _ Hp)); rewrite E; eexists; reflexivity.
  - apply Hdecode.
  - apply Hdecode.
  - apply Hdecode.
  - unfold GetRegionsDNS. simpl.
    destruct (dns_Exchange _ _); eexists; reflexivity.
  - intros cb.
    destruct (AddCallback_cases c uuid cb)
      as [(le & _ & E) | (b & _ & [[Hp _] | [(le & _ & E) | (resp & _ & E)]])];
      try (destruct (Hnp _ _ _ Hp)); rewrite E; eexists; reflexivity.
Qed.

(** [GetRegionsDNS] sends one query to the handle's DNS address: the single
    question [regions], of type SRV and class INET, recursion desired.  Its
    result is the nil map with a nil error when the exchange succeeds, and
    the nil map with the exchange's error otherwise. *)
Theorem GetRegionsDNS_outcomes (c : Client) :
  exists q : dns.Msg,
    dns.Questions q = [dns.mkQuestion "regions" 33 1] /\
    dns.RecursionDesired q = true /\
    dns.Id q = dns_Id /\
    GetRegionsDNS c =
      match dns_Exchange q (basedns c) with
      | inl _ => Return (None, None)
      | inr e => Return (None, Some (LibError e))
      end.
Proof.
  eexists. split; [|split; [|split]]; cycle 3.
  - unfold GetRegionsDNS. simpl.
    destruct (dns_Exchange _ _) eqn:E; simpl; rewrite E; reflexivity.
  - reflexivity.
  - reflexivity.
  - reflexivity.
Qed.

(** The HTTP operations read only the base address and the secret of the
    handle, and the DNS query only its DNS address: two handles that agree
    there get the same result from every operation.  The domain suffix is
    read by none. *)
Theorem operations_ignore_domain (c c' : Client) (uuid : string) :
  (base c = base c' -> secret c = secret c' ->
   (forall s, Add c uuid s = Add c' uuid s) /\
   Delete c uuid = Delete c' uuid /\
   Get c uuid = Get c' uuid /\
   (forall ttl, Update c uuid ttl = Update c' uuid ttl) /\
   GetAllServices c = GetAllServices c' /\
   GetRegions c = GetRegions c' /\
   GetEnvironments c = GetEnvironments c' /\
   (forall cb, AddCallback c uuid cb = AddCallback c' uuid cb)) /\
  (basedns c = basedns c' -> GetRegionsDNS c = GetRegionsDNS c').
Proof.
  destruct c as [b s hc bd dom dc], c' as [b' s' hc' bd' dom' dc'].
  simpl. split.
  - intros <- <-. repeat apply conj; intros; reflexivity.
  - intros <-. reflexivity.
Qed.

End Limits.

(** ** More on construction, addresses and paths *)

Section Derivation.

Import strings.

Lemma digits_clean (d : Decimal.uint) (c : ascii) :
  c = ":"%char \/ c = "["%char \/ c = "]"%char ->
  IndexByteString (NilEmpty.string_of_uint d) c < 0.
Proof.
  intros Hc. induction d; simpl NilEmpty.string_of_uint;
    [simpl; lia|..];
    (apply IndexByteString_absent_String; [|assumption]);
    destruct Hc as [-> | [-> | -> ]]; discriminate.
Qed.

Lemma string_of_uint_clean (d : Decimal.uint) (c : ascii) :
  c = ":"%char \/ c = "["%char \/ c = "]"%char ->
  IndexByteString (NilZero.string_of_uint d) c < 0.
Proof.
  intros Hc. destruct d; try apply (digits_clean _ _ Hc).
  change (NilZero.string_of_uint Decimal.Nil) with "0".
  destruct Hc as [-> | [-> | -> ]]; simpl; lia.
Qed.

(** The decimal text of a number holds no colon and no square bracket. *)
Lemma Itoa_clean (z : Z) (c : ascii) :
  c = ":"%char \/ c = "["%char \/ c = "]"%char ->
  IndexByteString (strconv.Itoa z) c < 0.
Proof.
  intros Hc. unfold strconv.Itoa.
  destruct (Z.to_int z) as [d|d]; simpl NilZero.string_of_int.
  - apply string_of_uint_clean. exact Hc.
  - apply IndexByteString_absent_String.
    + destruct Hc as [-> | [-> | -> ]]; discriminate.
    + apply string_of_uint_clean. exact Hc.
Qed.

(** The decimal text of a number reads back as the number. *)
Lemma Itoa_reads_back (z : Z) :
  option_map Z.of_int (NilZero.int_of_string (strconv.Itoa z)) = Some z.
Proof.
  unfold strconv.Itoa. rewrite NilZero.isi.
  - simpl. rewrite DecimalZ.of_to. reflexivity.
  - destruct z; simpl; try discriminate.
    intros [= H]. exact (DecimalPos.Unsigned.to_uint_nonnil _ H).
  - destruct z; simpl; try discriminate.
    intros [= H]. exact (DecimalPos.Unsigned.to_uint_nonnil _ H).
Qed.

Lemma Itoa_injective (a b : Z) : strconv.Itoa a = strconv.Itoa b -> a = b.
Proof.
  intros H. pose proof (Itoa_reads_back a) as Ha.
  rewrite H, Itoa_reads_back in Ha. congruence.
Qed.

Lemma app_inv_head (s t u : string) : s +:+ t = s +:+ u -> t = u.
Proof.
  induction s as [|a s IH]; rewrite ?app_empty_l, ?app_String;
    [trivial|]. intros [= H]. exact (IH H).
Qed.

Lemma app_inv_tail (s t u : string) : s +:+ u = t +:+ u -> s = t.
Proof.
  revert t. induction s as [|a s IH]; intros [|b t];
    rewrite ?app_empty_l, ?app_String.
  - reflexivity.
  - intros H. apply (f_equal len) in H.
    rewrite len_String, len_app in H. pose proof (len_nonneg t). lia.
  - intros H. apply (f_equal len) in H.
    rewrite len_String, len_app in H. pose proof (len_nonneg s). lia.
  - intros [= Hab H]. rewrite Hab, (IH _ H). reflexivity.
Qed.

Lemma IsFqdn_String (a : ascii) (s : string) :
  s <> "" -> dns.IsFqdn (String a s) = dns.IsFqdn s.
Proof.
  intros Hne. unfold dns.IsFqdn. cbv zeta. rewrite len_String.
  assert (Hpos : 0 < len s).
  { destruct s; [contradiction|]. rewrite len_String.
    pose proof (len_nonneg s). lia. }
  destruct (Z.eqb_spec (1 + len s) 0); [lia|].
  destruct (Z.eqb_spec (len s) 0); [lia|].
  unfold at_.
  destruct (Z.ltb_spec (1 + len s - 1) 0); [lia|].
  destruct (Z.ltb_spec (len s - 1) 0); [lia|].
  replace (Z.to_nat (1 + len s - 1)) with (S (Z.to_nat (len s - 1))) by lia.
  reflexivity.
Qed.

Lemma IsFqdn_app_dot (s : string) : dns.IsFqdn (s +:+ ".") = true.
Proof.
  induction s as [|a s IH]; rewrite ?app_empty_l, ?app_String.
  - reflexivity.
  - rewrite IsFqdn_String; [exact IH|].
    destruct s; rewrite ?app_empty_l, ?app_String; discriminate.
Qed.

Lemma IsFqdn_Fqdn (s : string) : dns.IsFqdn (dns.Fqdn s) = true.
Proof.
  unfold dns.Fqdn. destruct (dns.IsFqdn s) eqn:E; [exact E|].
  apply IsFqdn_app_dot.
Qed.

(** The three outcomes of [NewClient], by the length of the base address
    alone: the error for the empty one, a panic for one to five bytes, and
    from six bytes on a handle that keeps the base address and the secret as
    they were given. *)
Theorem NewClient_outcomes (addr key dnsdomain : string) (dnsport : Z) :
  (addr = "" /\
   NewClient addr key dnsdomain dnsport = Return (None, Some ErrNoHttpAddress)) \/
  (0 < len addr < 6 /\
   NewClient addr key dnsdomain dnsport = Panic "slice bounds out of range") \/
  (6 <= len addr /\
   exists c : Client,
     NewClient addr key dnsdomain dnsport = Return (Some c, None) /\
     base c = addr /\ secret c = key).
Proof.
  destruct (String.eqb_spec addr "") as [->|Hne].
  - left. split; reflexivity.
  - right.
    assert (0 < len addr).
    { destruct addr; [contradiction|]. rewrite len_String.
      pose proof (len_nonneg addr). lia. }
    destruct (Z.lt_ge_cases (len addr) 6) as [Hlt|Hge].
    + left. split; [lia|].
      unfold NewClient.
      rewrite (eqb_empty_false _ Hne), (slice_from_out_of_range _ _ Hlt).
      reflexivity.
    + right. split; [exact Hge|]. eexists. split.
      * apply NewClient_sliced; [exact Hne|].
        apply slice_from_in_range. lia.
      * split; reflexivity.
Qed.

End Derivation.

Section Handles.

Import strings.

(** Inverts a call of [NewClient] that returned a handle. *)
Lemma NewClient_handle (addr key dnsdomain : string) (dnsport : Z)
    (c : Client) (err : option error) :
  NewClient addr key dnsdomain dnsport = Return (Some c, err) ->
  err = None /\
  exists hostport,
    slice_from addr 6 = Return hostport /\
    c = {| base := addr;
           secret := key;
           h := http.zero_Client;
           basedns := net.JoinHostPort (net.SplitHostPort hostport).1.1
                        (strconv.Itoa (if dnsport =? 0 then 53 else dnsport));
           domain := "." +:+ dns.Fqdn dnsdomain;
           d := dns.zero_Client |}.
Proof.
  intros H.
  destruct (String.eqb_spec addr "") as [->|Hne]; [discriminate|].
  destruct (slice_from addr 6) as [hostport|reason] eqn:Hslice.
  - rewrite (NewClient_sliced _ _ _ _ _ Hne Hslice) in H.
    injection H as <- <-. split; [reflexivity|].
    exists hostport. split; reflexivity.
  - unfold NewClient in H.
    rewrite (eqb_empty_false _ Hne), Hslice in H. discriminate.
Qed.

(** The domain suffix of every handle is fully qualified and starts with
    the separating dot: a name that already ends in a dot is kept, any other
    name, the empty one included, gets one dot appended. *)
Theorem NewClient_domain_qualified (addr key dnsdomain : string) (dnsport : Z)
    (c : Client) (err : option error) :
  NewClient addr key dnsdomain dnsport = Return (Some c, err) ->
  dns.IsFqdn (domain c) = true /\
  (dns.IsFqdn dnsdomain = true -> domain c = "." +:+ dnsdomain) /\
  (dns.IsFqdn dnsdomain = false -> domain c = "." +:+ dnsdomain +:+ ".").
Proof.
  intros H. destruct (NewClient_handle _ _ _ _ _ _ H) as (_ & hp & _ & ->).
  simpl. split; [|split].
  - change ("." +:+ dns.Fqdn dnsdomain) with (String "." (dns.Fqdn dnsdomain)).
    rewrite IsFqdn_String; [apply IsFqdn_Fqdn|].
    intros E. pose proof (IsFqdn_Fqdn dnsdomain) as F. rewrite E in F.
    discriminate.
  - intros E. unfold dns.Fqdn. rewrite E. reflexivity.
  - intros E. unfold dns.Fqdn. rewrite E. reflexivity.
Qed.

(** The DNS address of every handle splits back, without an error, into a
    host and the decimal text of the port in force (53 for port 0, the given
    number otherwise, whatever it is); that text reads back as the number. *)
Theorem NewClient_basedns_splits (addr key dnsdomain : string) (dnsport : Z)
    (c : Client) (err : option error) :
  NewClient addr key dnsdomain dnsport = Return (Some c, err) ->
  exists host port : string,
    net.SplitHostPort (basedns c) = (host, port, None) /\
    basedns c = net.JoinHostPort host port /\
    option_map Z.of_int (NilZero.int_of_string port)
      = Some (if dnsport =? 0 then 53 else dnsport).
Proof.
  intros H. destruct (NewClient_handle _ _ _ _ _ _ H) as (_ & hp & _ & ->).
  simpl.
  destruct (net.SplitHostPort hp) as [[host port] e] eqn:Hsplit.
  destruct (SplitHostPort_host_clean _ _ _ _ Hsplit) as [Hopen Hclose].
  exists host, (strconv.Itoa (if dnsport =? 0 then 53 else dnsport)).
  simpl. split; [|split].
  - apply SplitHostPort_JoinHostPort; try assumption; apply Itoa_clean; auto.
  - reflexivity.
  - apply Itoa_reads_back.
Qed.

(** The first six bytes of the base address are dropped unread: two base
    addresses that differ only there give handles with the same DNS address
    and the same domain suffix, whatever those six bytes are. *)
Theorem NewClient_prefix_ignored (p q rest key dnsdomain : string) (dnsport : Z) :
  len p = 6 -> len q = 6 ->
  exists c c' : Client,
    NewClient (p +:+ rest) key dnsdomain dnsport = Return (Some c, None) /\
    NewClient (q +:+ rest) key dnsdomain dnsport = Return (Some c', None) /\
    basedns c = basedns c' /\
    domain c = domain c' /\
    basedns c = net.JoinHostPort (net.SplitHostPort rest).1.1
                  (strconv.Itoa (if dnsport =? 0 then 53 else dnsport)).
Proof.
  intros Hp Hq.
  assert (Hslice : forall s, len s = 6 -> s +:+ rest <> "" /\
                             slice_from (s +:+ rest) 6 = Return rest).
  { intros s Hs. pose proof (len_nonneg rest). split.
    - intros E. apply (f_equal len) in E. rewrite len_app in E.
      change (len "") with 0 in E. lia.
    - rewrite slice_from_in_range by (rewrite len_app; lia).
      f_equal. apply sub_suffix; [lia|]. rewrite len_app. lia. }
  destruct (Hslice p Hp) as [Hnp Hsp], (Hslice q Hq) as [Hnq Hsq].
  eexists. eexists.
  split; [apply (NewClient_sliced _ _ _ _ _ Hnp Hsp)|].
  split; [apply (NewClient_sliced _ _ _ _ _ Hnq Hsq)|].
  repeat split.
Qed.

(** The path of a service determines its UUID, and it is never the path of
    a callback, of the regions or of the environments. *)
Theorem service_urls_apart (c : Client) :
  (forall u1 u2, joinUrl c u1 = joinUrl c u2 -> u1 = u2) /\
  (forall u u', joinUrl c u <> base c +:+ "/skydns/callbacks/" +:+ u') /\
  (forall u, joinUrl c u <> base c +:+ "/skydns/regions/") /\
  (forall u, joinUrl c u <> base c +:+ "/skydns/environments/").
Proof.
  unfold joinUrl. repeat apply conj.
  - intros u1 u2 H.
    apply app_inv_head in H. apply app_inv_head in H. exact H.
  - intros u u' H. apply app_inv_head in H. discriminate.
  - intros u H. apply app_inv_head in H. discriminate.
  - intros u H. apply app_inv_head in H. discriminate.
Qed.

(** The body [Update] sends determines the TTL: two TTLs with the same
    body are the same number. *)
Theorem ttl_body_injective (ttl ttl' : Z) :
  ttl_body ttl = ttl_body ttl' -> ttl = ttl'.
Proof.
  unfold ttl_body. intros H.
  do 5 apply app_inv_head in H.
  apply app_inv_tail in H. apply Itoa_injective. exact H.
Qed.

End Handles.

(** ** The further properties at concrete inputs *)

Section MoreExamples.

Import strings.

(** A secret on a well-formed request. *)
Lemma newRequest_attaches_secret_witness :
  exists req : http.Request,
    newRequest (W := canned_World 200 None) (example_Client "s3cret")
      "GET" "http://10.0.0.1:8080/skydns/services/1001" None
      = Return (Some req, None) /\
    http.Header req !! "Authorization" = Some ["s3cret"].
Proof.
  destruct (newRequest_attaches_secret (W := canned_World 200 None)
              (example_Client "s3cret") "GET"
              "http://10.0.0.1:8080/skydns/services/1001" None
              (http.mkRequest "GET" "http://10.0.0.1:8080/skydns/services/1001" ∅ None)
              eq_refl)
    as (req & Ereq & _ & _ & _ & _ & Hsecret).
  exists req. split; [exact Ereq|].
  destruct (Hsecret ltac:(discriminate)) as [Hauth _]. exact Hauth.
Defined.

(** A server that answers 201 to a registration. *)
Lemma Add_success_iff_witness :
  Add (W := canned_World 201 None) (example_Client "") "1001" (Some "{}")
  = Return None.
Proof.
  apply (Add_success_iff (W := canned_World 201 None)).
  exists "{}", (http.mkResponse 201 None).
  split; [reflexivity|]. split; [|reflexivity].
  eexists. split; reflexivity.
Defined.

(** A server that answers 201 to a callback registration. *)
Lemma AddCallback_success_iff_witness :
  AddCallback (W := canned_World 201 None) (example_Client "") "1001" (Some "{}")
  = Return None.
Proof.
  apply (AddCallback_success_iff (W := canned_World 201 None)).
  exists "{}", (http.mkResponse 201 None).
  split; [reflexivity|]. split; [|reflexivity].
  eexists. split; reflexivity.
Defined.

(** A server that answers 200 with an object. *)
Lemma Get_record_iff_witness :
  exists resp body,
    round_trip (W := canned_World 200 (Some "{}")) (example_Client "")
      "GET" (joinUrl (example_Client "") "1001") None resp /\
    http.StatusCode resp = 200 /\
    http.Body resp = Some body /\
    toy_decode body = inl (Some "{}").
Proof.
  apply (Get_record_iff (W := canned_World 200 (Some "{}"))
           (example_Client "") "1001" "{}").
  reflexivity.
Defined.

(** Servers that answer 404 to a deletion and 500 to an update. *)
Lemma Delete_Update_success_iff_witness :
  Delete (W := canned_World 404 None) (example_Client "") "1001" = Return None /\
  Update (W := canned_World 500 None) (example_Client "") "1001" 30 = Return None.
Proof.
  split.
  - apply (Delete_Update_success_iff (W := canned_World 404 None)
             (example_Client "") "1001" 30).
    eexists. eexists. split; reflexivity.
  - apply (Delete_Update_success_iff (W := canned_World 500 None)
             (example_Client "") "1001" 30).
    eexists. eexists. split; reflexivity.
Defined.

(** A URL that cannot be parsed, without a secret; and a server that cannot
    be reached, with one. *)
Lemma request_error_returned_witness :
  Get (W := malformed_World) (example_Client "") "%zz"
    = Return (None, Some (LibError (OtherError "net/url"
        "parse http://10.0.0.1:8080/skydns/services/%zz: invalid URL escape"))) /\
  Delete (W := unreachable_World) (example_Client "s3cret") "1001"
    = Return (Some (LibError (OtherError "net/http"
        "dial tcp: connection refused"))).
Proof.
  split.
  - apply (request_error_returned (W := malformed_World) (example_Client "") "%zz").
    left. split; reflexivity.
  - apply (request_error_returned (W := unreachable_World)
             (example_Client "s3cret") "1001").
    right. eexists. split; reflexivity.
Defined.

(** A server that answers 500 with a body. *)
Lemma reads_ignore_status_witness :
  GetRegions (W := canned_World 500 (Some "oops")) (example_Client "")
  = Return (Some ∅, None).
Proof.
  apply (reads_ignore_status (W := canned_World 500 (Some "oops"))
           (example_Client "") (http.mkResponse 500 (Some "oops")) "oops" eq_refl).
  eexists. split; reflexivity.
Defined.

(** [ErrConflictingUUID] is never the error of a deletion. *)
Lemma sentinels_by_operation_witness :
  Delete (W := canned_World 409 None) (example_Client "") "1001"
    <> Return (Some ErrConflictingUUID) /\
  ErrConflictingUUID ∈ sentinels.
Proof.
  assert (H : ErrConflictingUUID ∈ sentinels).
  { unfold sentinels. rewrite !elem_of_cons. auto. }
  split; [|exact H].
  apply (sentinels_by_operation (W := canned_World 409 None)
           (example_Client "") "1001" ErrConflictingUUID H).
Defined.

(** A well-behaved server and a client with a secret. *)
Lemma operations_do_not_panic_witness :
  returns (Get (W := canned_World 200 (Some "{}")) (example_Client "s3cret") "1001") /\
  returns (GetAllServices (W := canned_World 200 (Some "{}")) (example_Client "s3cret")).
Proof.
  assert (H := operations_do_not_panic (W := canned_World 200 (Some "{}"))
                 (example_Client "s3cret") "1001").
  destruct H as (_ & _ & HGet & _ & HAll & _).
  - right. intros method url body. eexists. reflexivity.
  - intros req resp [= <-]. discriminate.
  - split; assumption.
Defined.

(** Two handles for one server that differ in the domain suffix only. *)
Lemma operations_ignore_domain_witness :
  Get (W := canned_World 200 (Some "{}")) (example_Client "") "1001"
  = Get (W := canned_World 200 (Some "{}"))
      (mkClient "http://10.0.0.1:8080" "" http.zero_Client "10.0.0.1:53"
         ".other.zone." dns.zero_Client) "1001".
Proof.
  apply (operations_ignore_domain (W := canned_World 200 (Some "{}"))
           (example_Client "")
           (mkClient "http://10.0.0.1:8080" "" http.zero_Client "10.0.0.1:53"
              ".other.zone." dns.zero_Client) "1001"); reflexivity.
Defined.

(** The empty domain name. *)
Lemma NewClient_domain_qualified_witness :
  dns.IsFqdn ".." = true /\ ".." = "." +:+ "" +:+ ".".
Proof.
  destruct (NewClient_domain_qualified "http://10.0.0.1:8080" "" "" 0
              (mkClient "http://10.0.0.1:8080" "" http.zero_Client "/10.0.0.1:53"
                 ".." dns.zero_Client) None eq_refl)
    as (Hq & _ & Hdot).
  split; [exact Hq|]. apply Hdot. reflexivity.
Defined.

(** An IPv6 literal behind a six-byte prefix, and port 5353. *)
Lemma NewClient_basedns_splits_witness :
  exists host port : string,
    net.SplitHostPort "[::1]:5353" = (host, port, None) /\
    "[::1]:5353" = net.JoinHostPort host port /\
    option_map Z.of_int (NilZero.int_of_string port) = Some 5353.
Proof.
  apply (NewClient_basedns_splits "http:/[::1]:8080" "" "skydns.local" 5353
           (mkClient "http:/[::1]:8080" "" http.zero_Client "[::1]:5353"
              ".skydns.local." dns.zero_Client) None eq_refl).
Defined.

(** Two six-byte prefixes before the same host and port. *)
Lemma NewClient_prefix_ignored_witness :
  exists c c' : Client,
    NewClient ("http:/" +:+ "10.0.0.1:8080") "" "skydns.local" 0
      = Return (Some c, None) /\
    NewClient ("ftp://" +:+ "10.0.0.1:8080") "" "skydns.local" 0
      = Return (Some c', None) /\
    basedns c = basedns c' /\
    domain c = domain c' /\
    basedns c = net.JoinHostPort (net.SplitHostPort "10.0.0.1:8080").1.1
                  (strconv.Itoa (if 0 =? 0 then 53 else 0)).
Proof.
  apply (NewClient_prefix_ignored "http:/" "ftp://" "10.0.0.1:8080" ""
           "skydns.local" 0); reflexivity.
Defined.

(** Two UUIDs of one client. *)
Lemma service_urls_apart_witness :
  "1001" = "1001" /\
  joinUrl (example_Client "") "regions" <> base (example_Client "") +:+ "/skydns/regions/".
Proof.
  split.
  - apply (service_urls_apart (example_Client "")). reflexivity.
  - apply (service_urls_apart (example_Client "")).
Defined.

(** One TTL, formatted twice. *)
Lemma ttl_body_injective_witness : 30 = 30 /\ ttl_body 30 = ttl_body 30.
Proof.
  split; [|reflexivity]. apply (ttl_body_injective 30 30). reflexivity.
Defined.

End MoreExamples.
